(** * The session state machine of truecallerjs_bot

    A shallow embedding of the Telegram webhook handler of [src/index.ts]
    and of the two other revisions of that file kept in the repository
    (the oldest one, without the installation-id flow, and the latest one,
    which validates the country code).

    The handler is one [async] function made of a chain of
    [if (...) { ...; return ...; }] blocks.  It reads and writes one Deno KV
    record per chat, calls the truecallerjs provider ([login], [verifyOtp],
    [search]), calls the fire-and-forget collaborators ([reportEvent],
    [sendTypingIndicator]) and answers with one [Response].  We embed it in
    a small state-and-exception monad over a [World] that holds the KV
    store, the module-level variable [tgChatId] and the trace of the
    effects performed so far.  A run is the handling of one request from
    its start to its response: what happens when two requests overlap at
    an [await] is not modelled. *)

From Stdlib Require Import String Ascii ZArith List Bool Lia.
From stdpp Require Import base option gmap.
Import ListNotations.

Local Open Scope Z_scope.
Local Open Scope string_scope.

(** ** JavaScript strings *)

(** A JS string is modelled by the Rocq [string] of the bytes of its UTF-8
    encoding.  On these, [String.eqb] is [===] on two strings and
    [String.prefix] is [startsWith] (the handler only tests for the ASCII
    prefixes [/] and [+]).  The [length] property counts UTF-16 code units,
    not bytes: it is [js_length]. *)

(** The UTF-16 code units that the character starting with the byte [c]
    takes: none for a continuation byte (10xxxxxx), two for the first byte
    of a four-byte sequence (11110xxx, a character beyond U+FFFF, which
    UTF-16 writes as a surrogate pair), one for every other first byte. *)
Definition utf16_units (c : ascii) : nat :=
  let n := nat_of_ascii c in
  if (n <? 128)%nat then 1%nat
  else if (n <? 192)%nat then 0%nat
  else if (n <? 240)%nat then 1%nat
  else 2%nat.

(** [s.length] *)
Fixpoint js_length (s : string) : nat :=
  match s with
  | EmptyString => 0%nat
  | String c rest => (utf16_units c + js_length rest)%nat
  end.

(** The escape [\n] of the source's string literals. *)
Definition nl : string := String "010"%char EmptyString.

(** [s.startsWith(searchString)] *)
Definition startsWith (s searchString : string) : bool :=
  String.prefix searchString s.

(** Truthiness of a string: every string but the empty one. *)
Definition truthy (s : string) : bool := negb (s =? "").

(** Truthiness of a possibly undefined string. *)
Definition truthy_opt (o : option string) : bool :=
  match o with
  | Some s => truthy s
  | None => false
  end.

(** [a || b] on a possibly undefined string [a]. *)
Definition or_else (a : option string) (b : string) : string :=
  match a with
  | Some s => if truthy s then s else b
  | None => b
  end.

(** ** Values exchanged with the truecallerjs provider *)

(** The body of an HTTP error response, as far as the handler reads it:
    [error.response.data.status] and [error.response.data.message]. *)
Module ResponseData.
Record t := { status : option Z; message : option string }.
End ResponseData.

Module AxiosResponse.
Record t := { data : option ResponseData.t }.
End AxiosResponse.

(** An [Error] object.  [response] is [None] when the object has no
    ["response"] property. *)
Module JsError.
Record t := {
  name : string;
  message : string;
  response : option AxiosResponse.t
}.
End JsError.

(** Modelled from the spec: the [LoginResponse] type is declared by the
    truecallerjs library, not by this repository; the spec gives it as
    [{ status, message, opaqueToken, parsedCountryCode }]. *)
Module LoginResponse.
Record t := {
  status : Z;
  message : string;
  opaqueToken : string;
  parsedCountryCode : string
}.
End LoginResponse.

(** The result of [verifyOtp], which the handler casts to
    [Record<string, unknown>] and reads at four keys.  A key is [None]
    when it is missing from the object. *)
Module OtpResponse.
Record t := {
  suspended : option bool;
  status : option Z;
  installationId : option string;
  message : option string
}.
End OtpResponse.

(** The argument of [search]. *)
Module SearchData.
Record t := {
  number : string;
  countryCode : string;
  installationId : string
}.
End SearchData.

(** The object returned by [search]: [json()] is either an [Error] that the
    library wrapped instead of throwing, or the data; [getName()] is the
    display name. *)
Module SearchResult.
Record t := {
  json : option JsError.t;
  getName : string
}.
End SearchResult.

(** The three operations of the provider.  Each either throws ([inl]) or
    returns ([inr]). *)
Module Provider.
Record t := {
  login : string -> JsError.t + LoginResponse.t;
  verifyOtp : string -> LoginResponse.t -> string -> JsError.t + OtpResponse.t;
  search : SearchData.t -> JsError.t + SearchResult.t
}.
End Provider.

(** ** The webhook request *)

(** [message.chat.id] and [message.text] of a Telegram [Message]. *)
Module Message.
Record t := { chat_id : Z; text : option string }.
End Message.

(** [my_chat_member.chat.id] and [my_chat_member.new_chat_member.status]. *)
Module ChatMemberUpdated.
Record t := { chat_id : Z; new_chat_member_status : string }.
End ChatMemberUpdated.

Module Update.
Record t := {
  message : option Message.t;
  my_chat_member : option ChatMemberUpdated.t
}.
(** The [{}] that replaces a body which is not JSON. *)
Definition empty : t := {| message := None; my_chat_member := None |}.
End Update.

(** [json] is [None] when [request.json()] rejects (the rejection is caught
    and logged, and [?? {}] takes over). *)
Module Request.
Record t := { method : string; json : option Update.t }.
End Request.

(** ** Responses *)

(** [SendMessage] carries three fields of the JSON body that
    [sendTgMessage] builds: [chat_id], whether [parse_mode] is
    [MarkdownV2], and [text].  The body also has the constant [method] and
    a link-preview field that is the same for every reply of a revision
    and is spelled differently from one revision to the other
    ([disable_web_page_preview: true] in [src/index.ts],
    [link_preview_options: { is_disabled: true }] in the latest revision,
    none in the oldest); these are not carried. *)
Inductive Response :=
| EmptyResponse                       (* new Response() *)
| NotFound                            (* new Response(null, { status: 404 }) *)
| SendMessage (chat_id : option Z) (formatted : bool) (text : string).

(** ** Effects *)

(** What a run of the handler does to the outside, in order.  [V] is the
    type of the stored values and [E] the type of event names. *)
Inductive Action (V E : Type) :=
| SendTypingIndicator (chat_id : option Z)
| KvGet (key : Z)
| KvSet (key : Z) (value : V)
| KvDelete (key : Z)
| ReportEvent (eventName : E)
| ReportError (error : JsError.t)
| Login (phoneNumber : string)
| VerifyOtp (phoneNumber : string) (loginResponse : LoginResponse.t) (otp : string)
| Search (searchData : SearchData.t).

Arguments SendTypingIndicator {V E} chat_id.
Arguments KvGet {V E} key.
Arguments KvSet {V E} key value.
Arguments KvDelete {V E} key.
Arguments ReportEvent {V E} eventName.
Arguments ReportError {V E} error.
Arguments Login {V E} phoneNumber.
Arguments VerifyOtp {V E} phoneNumber loginResponse otp.
Arguments Search {V E} searchData.

(** The Deno KV store under the prefix ["users"] (keyed by chat id), the
    variable [tgChatId], and the effects so far, oldest first. *)
Record World (V E : Type) := mkWorld {
  kv : gmap Z V;
  tgChatId : option Z;
  trace : list (Action V E)
}.

Arguments mkWorld {V E} kv tgChatId trace.
Arguments kv {V E} w.
Arguments tgChatId {V E} w.
Arguments trace {V E} w.

(** A computation either throws an [Error] or returns, and leaves a world. *)
Definition M (V E A : Type) : Type := World V E -> (JsError.t + A) * World V E.

#[export] Instance M_ret {V E} : MRet (M V E) :=
  fun A a w => (inr a, w).

#[export] Instance M_bind {V E} : MBind (M V E) :=
  fun A B f m w =>
    match m w with
    | (inl e, w') => (inl e, w')
    | (inr a, w') => f a w'
    end.

Section Effects.
Context {V E : Type}.

Definition throw {A} (e : JsError.t) : M V E A :=
  fun w => (inl e, w).

Definition gets {A} (f : World V E -> A) : M V E A :=
  fun w => (inr (f w), w).

Definition modify (f : World V E -> World V E) : M V E unit :=
  fun w => (inr tt, f w).

Definition emit (a : Action V E) : M V E unit :=
  modify (fun w => mkWorld (kv w) (tgChatId w) (trace w ++ [a])).

(** [await] on a provider operation: a rejection is rethrown. *)
Definition await {A} (a : Action V E) (r : JsError.t + A) : M V E A :=
  emit a;;
  match r with
  | inl e => throw e
  | inr x => mret x
  end.

(** [tgChatId = id] *)
Definition set_tgChatId (id : Z) : M V E unit :=
  modify (fun w => mkWorld (kv w) (Some id) (trace w)).

(** [(await kv.get(key)).value], [null] when there is no record. *)
Definition kv_get (key : Z) : M V E (option V) :=
  emit (KvGet key);;
  gets (fun w => kv w !! key).

(** [await kv.set(key, value)] *)
Definition kv_set (key : Z) (value : V) : M V E unit :=
  emit (KvSet key value);;
  modify (fun w => mkWorld (<[key := value]> (kv w)) (tgChatId w) (trace w)).

(** [await kv.delete(key)] *)
Definition kv_delete (key : Z) : M V E unit :=
  emit (KvDelete key);;
  modify (fun w => mkWorld (delete key (kv w)) (tgChatId w) (trace w)).

(** The call [reportEvent(eventName)] to the usage-event collaborator.  The
    call never throws and never touches the store or the reply; what it
    sends, if anything, is [Index.event_ping]. *)
Definition reportEvent (eventName : E) : M V E unit :=
  emit (ReportEvent eventName).

(** The call [reportError(error)] to the error-reporting collaborator. *)
Definition reportError (error : JsError.t) : M V E unit :=
  emit (ReportError error).

(** [sendTypingIndicator()] posts the chat action for [tgChatId]. *)
Definition sendTypingIndicator : M V E unit :=
  chat_id ← gets tgChatId;
  emit (SendTypingIndicator chat_id).

(** [sendTgMessage(text, formatted)] builds the reply for [tgChatId]. *)
Definition sendTgMessage (text : string) (formatted : bool) : M V E Response :=
  chat_id ← gets tgChatId;
  mret (SendMessage chat_id formatted text).

(** [if (c) action;] *)
Definition when (c : bool) (action : M V E unit) : M V E unit :=
  if c then action else mret tt.

(** A chain of [if (...) { ...; return ...; }] blocks: the first block whose
    condition holds decides, and [last] is the code after the chain. *)
Fixpoint first_return {A} (blocks : list (option (M V E A))) (last : M V E A)
  : M V E A :=
  match blocks with
  | [] => last
  | Some run :: _ => run
  | None :: rest => first_return rest last
  end.

(** [try { m } catch (e) { handler(e) }] *)
Definition try_catch {A} (m : M V E A) (handler : JsError.t -> M V E A) : M V E A :=
  fun w =>
    match m w with
    | (inl e, w') => handler e w'
    | (inr a, w') => (inr a, w')
    end.
End Effects.

(** ** [src/index.ts] *)

Module Index.

(** [type BotCommand] *)
Inductive BotCommand :=
| cmd_start | cmd_login | cmd_installation_id | cmd_logout
| cmd_stop | cmd_info | cmd_search.

(** The string literal that each member of [BotCommand] is. *)
Definition command_text (c : BotCommand) : string :=
  match c with
  | cmd_start => "/start"
  | cmd_login => "/login"
  | cmd_installation_id => "/installation_id"
  | cmd_logout => "/logout"
  | cmd_stop => "/stop"
  | cmd_info => "/info"
  | cmd_search => "/search"
  end.

(** The environment variables that [reportEvent] reads. *)
Module Env.
Record t := {
  EVENT_PING_URL : option string;
  EVENT_PING_PROJECT_ID : option string
}.
End Env.

(** The body of the POST that [reportEvent] sends. *)
Module EventPing.
Record t := { url : string; website : string; event : BotCommand }.
End EventPing.

(** The body of [reportEvent]: without both environment variables the call
    logs a warning and sends nothing, otherwise it posts the event to
    [EVENT_PING_URL]. *)
Definition event_ping (env : Env.t) (eventName : BotCommand)
  : option EventPing.t :=
  if negb (truthy_opt (Env.EVENT_PING_URL env)
           && truthy_opt (Env.EVENT_PING_PROJECT_ID env))
  then None
  else Some {| EventPing.url := default "" (Env.EVENT_PING_URL env);
               EventPing.website := default "" (Env.EVENT_PING_PROJECT_ID env);
               EventPing.event := eventName |}.

(** [type KvValue], a union discriminated by [status]. *)
Inductive KvValue :=
| awaiting_phone_no
| awaiting_otp (phoneNumber : string) (loginResponse : LoginResponse.t)
| awaiting_installation_id
| awaiting_country_code (installationId : string)
| logged_in (installationId countryCode : string)
| logged_out.

(** The six values of the [status] field. *)
Inductive Status :=
| st_awaiting_phone_no | st_awaiting_otp | st_awaiting_installation_id
| st_awaiting_country_code | st_logged_in | st_logged_out.

Definition status (v : KvValue) : Status :=
  match v with
  | awaiting_phone_no => st_awaiting_phone_no
  | awaiting_otp _ _ => st_awaiting_otp
  | awaiting_installation_id => st_awaiting_installation_id
  | awaiting_country_code _ => st_awaiting_country_code
  | logged_in _ _ => st_logged_in
  | logged_out => st_logged_out
  end.

Definition is_logged_in (v : KvValue) : bool :=
  match v with logged_in _ _ => true | _ => false end.

Definition is_logged_out (v : KvValue) : bool :=
  match v with logged_out => true | _ => false end.

Abbreviation Eff := (M KvValue BotCommand).

(** The texts of the replies. *)
Definition msg_start : string :=
  "You need to /login to Truecaller with your existing account to use the bot."
  ++ nl ++ "Only you will be using your own account to search the numbers.".

Definition msg_about : string :=
  "[Source Code](https://github.com/ni554n/truecallerjs_bot) *\|* [anissan\.com](https://anissan.com)".

Definition msg_info (kvValue : KvValue) : string :=
  let '(status, installationId) :=
    match kvValue with
    | logged_in installationId _ => ("Logged in", Some installationId)
    | _ => ("Logged out", None)
    end in
  let status := "*Status:* " ++ status in
  let installationId :=
    match installationId with
    | Some id =>
        if truthy id
        then nl ++ "[Installation ID:](https://github.com/sumithemmadi/truecallerjs#simple-example) `"
             ++ id ++ "`"
        else ""
    | None => ""
    end in
  status ++ installationId ++ nl ++ nl ++ msg_about.

Definition msg_already_logged_in_id : string :=
  "You are already logged in." ++ nl ++ "/logout first and then try again.".

Definition msg_enter_installation_id : string :=
  "_installation\_id_ is the final auth token generated after a successful truecaller login\."
  ++ nl ++ nl ++
  "If you know how to retrieve it from an already logged in device, you can directly set it here without going through the login process again\."
  ++ nl ++ nl ++ "Enter the installation ID:".

Definition msg_enter_country_code : string :=
  "Enter your phone number's 2\-letter [ISO country code](https://en.wikipedia.org/wiki/List_of_ISO_3166_country_codes):".

Definition msg_success : string :=
  "Successfully logged in to Truecaller." ++ nl ++ "You can now search any number.".

Definition msg_logged_out : string := "You've been logged out".

Definition msg_already_logged_in : string :=
  "You are already logged in. /logout first and then try /login again.".

Definition msg_enter_phone : string :=
  "Enter your Truecaller account phone no. in international (+19...) format:".

Definition msg_phone_format : string :=
  "Phone number should be in international format like +91...".

Definition msg_attempts_exceeded : string :=
  "You have exceeded the limit of verification attempts." ++ nl
  ++ "Please try again after some time (up to 24h).".

Definition msg_enter_otp : string := "Enter the OTP from SMS or WhatsApp:".

Definition msg_suspended : string :=
  "Your account has been suspended by Truecaller." ++ nl
  ++ "Try to /login with another number.".

Definition msg_invalid_otp : string := "Invalid OTP".

Definition msg_retries : string := "Retries limit exceeded".

Definition msg_unknown_error : string := "Unknown error. Try again.".

Definition msg_login_first : string :=
  "Please /login first before searching for a number".

Definition msg_account_error (apiMessage : string) : string :=
  "Truecaller responded with an account error: `" ++ apiMessage ++ "`\."
  ++ nl ++ nl ++
  "Make sure your account is still valid by login into the official app\."
  ++ nl ++ nl ++ "Try to /login here again after checking\.".

(** [const { status = "", message: apiMessage = "" } = error.response?.data ?? {}]:
    [status] stays [None] where the source defaults it to [""], which is not
    a number. *)
Definition error_status (error : JsError.t) : option Z :=
  d ← (r ← JsError.response error; AxiosResponse.data r);
  ResponseData.status d.

Definition error_apiMessage (error : JsError.t) : string :=
  default "" (d ← (r ← JsError.response error; AxiosResponse.data r);
              ResponseData.message d).

(** [status === n] on a possibly missing number. *)
Definition status_is (status : option Z) (n : Z) : bool :=
  match status with
  | Some s => s =? n
  | None => false
  end%Z.

Section Handler.
Variable truecallerjs : Provider.t.
Variable chatIdKey : Z.
Variable kvValue : KvValue.
Variable text : string.

(** Each [if (...) { ...; return ...; }] block of the handler is [Some] of
    what it does when its condition holds, and [None] when control falls
    through to the next block. *)

(** [if (message.text === "/start")] *)
Definition block_start : option (Eff Response) :=
  if text =? "/start" then Some (
    when (is_logged_out kvValue) (reportEvent cmd_start);;
    sendTgMessage msg_start false)
  else None.

(** [if (message.text === "/info")] *)
Definition block_info : option (Eff Response) :=
  if text =? "/info" then Some (sendTgMessage (msg_info kvValue) true)
  else None.

(** [if (message.text === "/installation_id")] *)
Definition block_installation_id : option (Eff Response) :=
  if text =? "/installation_id" then Some (
    if is_logged_in kvValue then sendTgMessage msg_already_logged_in_id false
    else
      kv_set chatIdKey awaiting_installation_id;;
      sendTgMessage msg_enter_installation_id true)
  else None.

(** [if (kvValue.status === "awaiting_installation_id" && !message.text.startsWith("/"))] *)
Definition block_awaiting_installation_id : option (Eff Response) :=
  match kvValue with
  | awaiting_installation_id =>
      if negb (startsWith text "/") then Some (
        let installationId := text in
        kv_set chatIdKey (awaiting_country_code installationId);;
        reportEvent cmd_installation_id;;
        sendTgMessage msg_enter_country_code true)
      else None
  | _ => None
  end.

(** [if (kvValue.status === "awaiting_country_code" && !message.text.startsWith("/"))] *)
Definition block_awaiting_country_code : option (Eff Response) :=
  match kvValue with
  | awaiting_country_code installationId =>
      if negb (startsWith text "/") then Some (
        let countryCode := text in
        kv_set chatIdKey (logged_in installationId countryCode);;
        sendTgMessage msg_success false)
      else None
  | _ => None
  end.

(** [if (message.text === "/logout")] *)
Definition block_logout : option (Eff Response) :=
  if text =? "/logout" then Some (
    kv_delete chatIdKey;;
    reportEvent cmd_logout;;
    sendTgMessage msg_logged_out false)
  else None.

(** [if (message.text === "/login")] *)
Definition block_login : option (Eff Response) :=
  if text =? "/login" then Some (
    if is_logged_in kvValue then sendTgMessage msg_already_logged_in false
    else
      kv_set chatIdKey awaiting_phone_no;;
      sendTgMessage msg_enter_phone false)
  else None.

(** [if (kvValue.status === "awaiting_phone_no" && !message.text.startsWith("/"))] *)
Definition block_awaiting_phone_no : option (Eff Response) :=
  match kvValue with
  | awaiting_phone_no =>
      if negb (startsWith text "/") then Some (
        let phoneNumber := text in
        if negb (startsWith phoneNumber "+")
        then sendTgMessage msg_phone_format false
        else
          responseBody ← await (Login phoneNumber)
                           (Provider.login truecallerjs phoneNumber);
          if (LoginResponse.status responseBody =? 6)%Z
             || (LoginResponse.status responseBody =? 5)%Z
          then sendTgMessage msg_attempts_exceeded false
          else if negb ((LoginResponse.status responseBody =? 1)%Z
                        || (LoginResponse.status responseBody =? 9)%Z
                        || (LoginResponse.message responseBody =? "Sent"))
          then sendTgMessage (LoginResponse.message responseBody) false
          else
            kv_set chatIdKey (awaiting_otp phoneNumber responseBody);;
            sendTgMessage msg_enter_otp false)
      else None
  | _ => None
  end.

(** [if (kvValue.status === "awaiting_otp" && !message.text.startsWith("/"))] *)
Definition block_awaiting_otp : option (Eff Response) :=
  match kvValue with
  | awaiting_otp phoneNumber loginResponse =>
      if negb (startsWith text "/") then Some (
        let otp := text in
        otpResponse ← await (VerifyOtp phoneNumber loginResponse otp)
                        (Provider.verifyOtp truecallerjs phoneNumber loginResponse otp);
        if default false (OtpResponse.suspended otpResponse)
        then sendTgMessage msg_suspended false
        else if status_is (OtpResponse.status otpResponse) 11
        then sendTgMessage msg_invalid_otp false
        else if status_is (OtpResponse.status otpResponse) 7
        then sendTgMessage msg_retries false
        else if negb (truthy_opt (OtpResponse.installationId otpResponse))
        then sendTgMessage
               (or_else (OtpResponse.message otpResponse) msg_unknown_error) false
        else
          kv_set chatIdKey
            (logged_in (default "" (OtpResponse.installationId otpResponse))
                       (LoginResponse.parsedCountryCode loginResponse));;
          reportEvent cmd_login;;
          sendTgMessage msg_success false)
      else None
  | _ => None
  end.

(** [if (kvValue.status !== "logged_in")] and the search that follows it. *)
Definition block_search : Eff Response :=
  match kvValue with
  | logged_in installationId countryCode =>
      let searchData :=
        {| SearchData.number := text;
           SearchData.countryCode := countryCode;
           SearchData.installationId := installationId |} in
      searchResult ← await (Search searchData)
                       (Provider.search truecallerjs searchData);
      match SearchResult.json searchResult with
      | Some error =>
          let status := error_status error in
          let apiMessage := error_apiMessage error in
          if status_is status 40101 || status_is status 42601
          then sendTgMessage (msg_account_error apiMessage) true
          else throw error
      | None =>
          reportEvent cmd_search;;
          sendTgMessage (SearchResult.getName searchResult) false
      end
  | _ => sendTgMessage msg_login_first false
  end.

(** The blocks in the order of the source. *)
Definition dispatch : Eff Response :=
  first_return
    [ block_start; block_info;
      block_installation_id; block_awaiting_installation_id;
      block_awaiting_country_code;
      block_logout;
      block_login; block_awaiting_phone_no; block_awaiting_otp ]
    block_search.

End Handler.

(** The handler from [tgChatId = message.chat.id] to its end: what it does
    with a message of chat [chat_id] whose text is [text]. *)
Definition transition (truecallerjs : Provider.t) (chat_id : Z) (text : string)
  : Eff Response :=
  set_tgChatId chat_id;;
  sendTypingIndicator;;
  let chatIdKey := chat_id in
  value ← kv_get chatIdKey;
  let kvValue := default logged_out value in
  dispatch truecallerjs chatIdKey kvValue text.

(** [my_chat_member?.new_chat_member.status === "kicked"] *)
Definition kicked (my_chat_member : option ChatMemberUpdated.t) : option Z :=
  match my_chat_member with
  | Some m =>
      if ChatMemberUpdated.new_chat_member_status m =? "kicked"
      then Some (ChatMemberUpdated.chat_id m)
      else None
  | None => None
  end.

(** The request handler given to [Deno.serve]. *)
Definition webhook (truecallerjs : Provider.t) (request : Request.t)
  : Eff Response :=
  if negb (Request.method request =? "POST") then mret NotFound
  else
    let update := default Update.empty (Request.json request) in
    match kicked (Update.my_chat_member update) with
    | Some chat_id =>
        let chatIdKey := chat_id in
        kv_delete chatIdKey;;
        reportEvent cmd_stop;;
        mret EmptyResponse
    | None =>
        match Update.message update with
        | Some message =>
            if truthy_opt (Message.text message)
            then transition truecallerjs (Message.chat_id message)
                   (default "" (Message.text message))
            else mret EmptyResponse
        | None => mret EmptyResponse
        end
    end.

Definition msg_try_again : string := "Try again with a valid number.".

Definition msg_internal_error (error : JsError.t) : string :=
  "Internal server error!" ++ (nl ++ "Reason: " ++ JsError.message error)
  ++ nl ++ "It's been reported and will be fixed if possible.".

(** The [onError] option given to [Deno.serve]. *)
Definition onError (error : JsError.t) : Eff Response :=
  let message :=
    match JsError.response error with
    | Some response =>
        if JsError.name error =? "AxiosError"
        then or_else (d ← AxiosResponse.data response; ResponseData.message d)
               msg_try_again
        else msg_internal_error error
    | None => msg_internal_error error
    end in
  reportError error;;
  if truthy message then sendTgMessage message false else mret EmptyResponse.

(** [Deno.serve({ onError }, handler)]: one request, one response. *)
Definition serve (truecallerjs : Provider.t) (request : Request.t)
  : Eff Response :=
  try_catch (webhook truecallerjs request) onError.

End Index.

(** ** [src/unnamed/part_000], second file (lines 319 to 806)

    The latest revision of the handler.  Its [BotCommand] and [KvValue]
    types are those of [src/index.ts], and so are the blocks for [/info],
    [/installation_id], [/logout], the phone-number, OTP and
    installation-id steps and the search; the [/start] and [/login] replies
    are reworded, the country-code step checks the length of the text, and
    the blocks come in another order. *)

Module PartB.
Import Index.

Definition msg_start : string :=
  "You need to /login to Truecaller with your existing non-EU account to use the bot."
  ++ nl ++ "Only you will be using your own account to search the numbers.".

Definition msg_enter_phone : string :=
  "Enter your (non-EU) Truecaller account phone number in international (+19...) format:".

Definition msg_invalid_country_code : string :=
  "Invalid country code. It should be a 2-letter ISO code like 'IN' for India, 'US' for the USA, etc.".

Section Handler.
Variable truecallerjs : Provider.t.
Variable chatIdKey : Z.
Variable kvValue : KvValue.
Variable text : string.

(** [if (message.text === "/start")] *)
Definition block_start : option (Eff Response) :=
  if text =? "/start" then Some (
    when (is_logged_out kvValue) (reportEvent cmd_start);;
    sendTgMessage msg_start false)
  else None.

(** [if (message.text === "/login")] *)
Definition block_login : option (Eff Response) :=
  if text =? "/login" then Some (
    if is_logged_in kvValue then sendTgMessage msg_already_logged_in false
    else
      kv_set chatIdKey awaiting_phone_no;;
      sendTgMessage msg_enter_phone false)
  else None.

(** [if (kvValue.status === "awaiting_country_code" && !message.text.startsWith("/"))] *)
Definition block_awaiting_country_code : option (Eff Response) :=
  match kvValue with
  | awaiting_country_code installationId =>
      if negb (startsWith text "/") then Some (
        let countryCode := text in
        if negb (js_length countryCode =? 2)%nat
        then sendTgMessage msg_invalid_country_code false
        else
          kv_set chatIdKey (logged_in installationId countryCode);;
          sendTgMessage msg_success false)
      else None
  | _ => None
  end.

(** The blocks in the order of the source. *)
Definition dispatch : Eff Response :=
  first_return
    [ block_start; Index.block_info kvValue text;
      block_login;
      Index.block_awaiting_phone_no truecallerjs chatIdKey kvValue text;
      Index.block_awaiting_otp truecallerjs chatIdKey kvValue text;
      Index.block_installation_id chatIdKey kvValue text;
      Index.block_awaiting_installation_id chatIdKey kvValue text;
      block_awaiting_country_code;
      Index.block_logout chatIdKey text ]
    (Index.block_search truecallerjs kvValue text).

End Handler.

(** The handler from [tgChatId = message.chat.id] to its end. *)
Definition transition (truecallerjs : Provider.t) (chat_id : Z) (text : string)
  : Eff Response :=
  set_tgChatId chat_id;;
  sendTypingIndicator;;
  let chatIdKey := chat_id in
  value ← kv_get chatIdKey;
  let kvValue := default logged_out value in
  dispatch truecallerjs chatIdKey kvValue text.

(** The request handler given to [Deno.serve]. *)
Definition webhook (truecallerjs : Provider.t) (request : Request.t)
  : Eff Response :=
  if negb (Request.method request =? "POST") then mret NotFound
  else
    let update := default Update.empty (Request.json request) in
    match kicked (Update.my_chat_member update) with
    | Some chat_id =>
        let chatIdKey := chat_id in
        kv_delete chatIdKey;;
        reportEvent cmd_stop;;
        mret EmptyResponse
    | None =>
        match Update.message update with
        | Some message =>
            if truthy_opt (Message.text message)
            then transition truecallerjs (Message.chat_id message)
                   (default "" (Message.text message))
            else mret EmptyResponse
        | None => mret EmptyResponse
        end
    end.

End PartB.

(** ** [src/unnamed/part_000], first file (lines 1 to 318)

    The oldest revision of the handler: four states, three commands, no
    test on a leading [/] in the multi-step flows, and a message may come
    without a text. *)

Module PartA.

(** The names that [reportEvent] accepts. *)
Inductive EventName :=
| ev_start | ev_login | ev_logout | ev_stop | ev_search.

(** [type KvValue] *)
Inductive KvValue :=
| awaiting_phone_no
| awaiting_otp (phoneNumber : string) (loginResponse : LoginResponse.t)
| logged_in (installationId countryCode : string)
| logged_out.

Definition is_logged_in (v : KvValue) : bool :=
  match v with logged_in _ _ => true | _ => false end.

Definition is_logged_out (v : KvValue) : bool :=
  match v with logged_out => true | _ => false end.

Abbreviation Eff := (M KvValue EventName).

Definition msg_attempts_exceeded : string :=
  "You have exceeded the limit of verification attempts." ++ nl
  ++ "Please try again after some time.".

(** [message.text === literal] on a possibly undefined text. *)
Definition text_is (text : option string) (literal : string) : bool :=
  match text with
  | Some t => t =? literal
  | None => false
  end.

(** [sendTgMessage(text)]: this revision has no formatting flag. *)
Definition sendTgMessage (text : string) : Eff Response :=
  sendTgMessage text false.

Section Handler.
Variable truecallerjs : Provider.t.
Variable chatIdKey : Z.
Variable kvValue : KvValue.
Variable text : option string.

(** [if (message.text === "/start")] *)
Definition block_start : option (Eff Response) :=
  if text_is text "/start" then Some (
    when (is_logged_out kvValue) (reportEvent ev_start);;
    sendTgMessage Index.msg_start)
  else None.

(** [if (message.text === "/logout")] *)
Definition block_logout : option (Eff Response) :=
  if text_is text "/logout" then Some (
    kv_delete chatIdKey;;
    reportEvent ev_logout;;
    sendTgMessage Index.msg_logged_out)
  else None.

(** [if (message.text === "/login")] *)
Definition block_login : option (Eff Response) :=
  if text_is text "/login" then Some (
    if is_logged_in kvValue then sendTgMessage Index.msg_already_logged_in
    else
      kv_set chatIdKey awaiting_phone_no;;
      sendTgMessage Index.msg_enter_phone)
  else None.

(** [if (kvValue.status === "awaiting_phone_no")] *)
Definition block_awaiting_phone_no : option (Eff Response) :=
  match kvValue with
  | awaiting_phone_no => Some (
      match text with
      | Some phoneNumber =>
          if negb (startsWith phoneNumber "+")
          then sendTgMessage Index.msg_phone_format
          else
            responseBody ← await (Login phoneNumber)
                             (Provider.login truecallerjs phoneNumber);
            if (LoginResponse.status responseBody =? 6)%Z
               || (LoginResponse.status responseBody =? 5)%Z
            then sendTgMessage msg_attempts_exceeded
            else if negb ((LoginResponse.status responseBody =? 1)%Z
                          || (LoginResponse.status responseBody =? 9)%Z
                          || (LoginResponse.message responseBody =? "Sent"))
            then sendTgMessage (LoginResponse.message responseBody)
            else
              kv_set chatIdKey (awaiting_otp phoneNumber responseBody);;
              sendTgMessage Index.msg_enter_otp
      | None => sendTgMessage Index.msg_phone_format
      end)
  | _ => None
  end.

(** [if (kvValue.status === "awaiting_otp")] *)
Definition block_awaiting_otp : option (Eff Response) :=
  match kvValue with
  | awaiting_otp phoneNumber loginResponse => Some (
      let otp := default "" text in
      otpResponse ← await (VerifyOtp phoneNumber loginResponse otp)
                      (Provider.verifyOtp truecallerjs phoneNumber loginResponse otp);
      if default false (OtpResponse.suspended otpResponse)
      then sendTgMessage Index.msg_suspended
      else if Index.status_is (OtpResponse.status otpResponse) 11
      then sendTgMessage Index.msg_invalid_otp
      else if Index.status_is (OtpResponse.status otpResponse) 7
      then sendTgMessage Index.msg_retries
      else if negb (truthy_opt (OtpResponse.installationId otpResponse))
      then sendTgMessage
             (or_else (OtpResponse.message otpResponse) Index.msg_unknown_error)
      else
        kv_set chatIdKey
          (logged_in (default "" (OtpResponse.installationId otpResponse))
                     (LoginResponse.parsedCountryCode loginResponse));;
        reportEvent ev_login;;
        sendTgMessage Index.msg_success)
  | _ => None
  end.

(** [if (kvValue.status !== "logged_in")] and the search that follows it. *)
Definition block_search : Eff Response :=
  match kvValue with
  | logged_in installationId countryCode =>
      let searchData :=
        {| SearchData.number := default "" text;
           SearchData.countryCode := countryCode;
           SearchData.installationId := installationId |} in
      searchResult ← await (Search searchData)
                       (Provider.search truecallerjs searchData);
      match SearchResult.json searchResult with
      | Some error => throw error
      | None =>
          reportEvent ev_search;;
          sendTgMessage (SearchResult.getName searchResult)
      end
  | _ => sendTgMessage Index.msg_login_first
  end.

(** The blocks in the order of the source. *)
Definition dispatch : Eff Response :=
  first_return
    [ block_start; block_logout; block_login;
      block_awaiting_phone_no; block_awaiting_otp ]
    block_search.

End Handler.

(** The handler from [tgChatId = message.chat.id] to its end. *)
Definition transition (truecallerjs : Provider.t) (chat_id : Z)
  (text : option string) : Eff Response :=
  set_tgChatId chat_id;;
  sendTypingIndicator;;
  let chatIdKey := chat_id in
  value ← kv_get chatIdKey;
  let kvValue := default logged_out value in
  dispatch truecallerjs chatIdKey kvValue text.

(** The request handler given to [Deno.serve]. *)
Definition webhook (truecallerjs : Provider.t) (request : Request.t)
  : Eff Response :=
  if negb (Request.method request =? "POST") then mret NotFound
  else
    let update := default Update.empty (Request.json request) in
    match Index.kicked (Update.my_chat_member update) with
    | Some chat_id =>
        let chatIdKey := chat_id in
        kv_delete chatIdKey;;
        reportEvent ev_stop;;
        mret EmptyResponse
    | None =>
        match Update.message update with
        | Some message =>
            transition truecallerjs (Message.chat_id message)
              (Message.text message)
        | None => mret EmptyResponse
        end
    end.

End PartA.

(** * Properties *)

(** Running the monad: unfold its operations, then the projections of the
    world. *)
Ltac run_monad :=
  cbv beta iota delta
    [mbind M_bind mret M_ret throw gets modify emit await set_tgChatId kv_get
     kv_set kv_delete reportEvent reportError sendTypingIndicator
     sendTgMessage PartA.sendTgMessage when try_catch first_return];
  cbn [kv tgChatId trace]; rewrite <- ?app_assoc; cbn [app].

(** ** What a run leaves behind *)

Section Frame.
Context {V E : Type}.

(** The record of chat [chat_id] as the handler loads it. *)
Definition stored (w : World V E) (chat_id : Z) : option V := kv w !! chat_id.

(** The effect on the store of the writes and deletes of a trace. *)
Fixpoint replay (acts : list (Action V E)) (store : gmap Z V) : gmap Z V :=
  match acts with
  | [] => store
  | KvSet key value :: rest => replay rest (<[key := value]> store)
  | KvDelete key :: rest => replay rest (delete key store)
  | _ :: rest => replay rest store
  end.

(** A trace without any write or delete. *)
Definition writes_nothing (acts : list (Action V E)) : Prop :=
  forall a, In a acts ->
    match a with
    | KvSet _ _ | KvDelete _ => False
    | _ => True
    end.

(** The actions that the run of [m] from [w] adds to the trace. *)
Definition performed {A} (m : M V E A) (w : World V E) : list (Action V E) :=
  drop (length (trace w)) (trace (snd (m w))).

(** Two providers answer a call in the same way. *)
Definition same_answer (P1 P2 : Provider.t) (a : Action V E) : Prop :=
  match a with
  | Login phoneNumber =>
      Provider.login P1 phoneNumber = Provider.login P2 phoneNumber
  | VerifyOtp phoneNumber loginResponse otp =>
      Provider.verifyOtp P1 phoneNumber loginResponse otp
      = Provider.verifyOtp P2 phoneNumber loginResponse otp
  | Search searchData =>
      Provider.search P1 searchData = Provider.search P2 searchData
  | _ => True
  end.

Lemma performed_app {A} (m : M V E A) (w : World V E) acts :
  trace (snd (m w)) = (trace w ++ acts)%list -> performed m w = acts.
Proof.
  intros H. unfold performed. rewrite H. apply drop_app_length.
Qed.

(** Replaying a trace on two stores that show the same record for a chat
    (up to the default [d] for no record) leaves two such stores. *)
Lemma replay_same_record (d : V) (acts : list (Action V E)) :
  forall (store1 store2 : gmap Z V) (chat_id : Z),
    default d (store1 !! chat_id) = default d (store2 !! chat_id) ->
    default d (replay acts store1 !! chat_id)
    = default d (replay acts store2 !! chat_id).
Proof.
  induction acts as [|a acts IH]; intros store1 store2 chat_id Hsame;
    [exact Hsame|].
  destruct a; cbn [replay]; apply IH; try exact Hsame.
  - destruct (decide (key = chat_id)) as [->|Hne].
    + rewrite !lookup_insert_eq. reflexivity.
    + rewrite !lookup_insert_ne by exact Hne. exact Hsame.
  - destruct (decide (key = chat_id)) as [->|Hne].
    + rewrite !lookup_delete_eq. reflexivity.
    + rewrite !lookup_delete_ne by exact Hne. exact Hsame.
Qed.

End Frame.

Module IndexFacts.
Import Index.

(** The state that the handler works with: [logged_out] when the chat has
    no record. *)
Definition loaded (w : World KvValue BotCommand) (chat_id : Z) : KvValue :=
  default logged_out (stored w chat_id).

Lemma transition_unfold P chat text (w : World KvValue BotCommand) :
  transition P chat text w =
  dispatch P chat (loaded w chat) text
    (mkWorld (kv w) (Some chat)
       (trace w ++ [SendTypingIndicator (Some chat); KvGet chat])).
Proof.
  unfold transition. run_monad. reflexivity.
Qed.

Ltac unfold_blocks :=
  unfold dispatch, block_start, block_info, block_installation_id,
    block_awaiting_installation_id, block_awaiting_country_code,
    block_logout, block_login, block_awaiting_phone_no, block_awaiting_otp,
    block_search.

(** One case split on a test of the handler. *)
Ltac split_step :=
  match goal with
  | |- context [String.eqb ?a ?b] => destruct (String.eqb a b) eqn:?
  | |- context [startsWith ?a ?b] => destruct (startsWith a b) eqn:?
  | |- context [Provider.login ?P ?a] => destruct (Provider.login P a) eqn:?
  | |- context [Provider.verifyOtp ?P ?a ?b ?c] =>
      destruct (Provider.verifyOtp P a b c) eqn:?
  | |- context [Provider.search ?P ?a] => destruct (Provider.search P a) eqn:?
  | |- context [SearchResult.json ?r] => destruct (SearchResult.json r) eqn:?
  | |- context [if ?c then _ else _] => destruct c eqn:?
  end.

Ltac split_cases :=
  repeat (split_step; cbn [negb orb andb]; run_monad).

(** The run of the blocks from any world is the run from the empty store,
    replayed. *)
Lemma dispatch_frame P chat v text store tg tr :
  let r := dispatch P chat v text (mkWorld ∅ tg []) in
  dispatch P chat v text (mkWorld store tg tr)
  = (fst r, mkWorld (replay (trace (snd r)) store) tg (tr ++ trace (snd r))).
Proof.
  unfold_blocks. cbn zeta.
  destruct v; cbn [is_logged_out is_logged_in first_return].
  all: run_monad.
  all: split_cases; cbn [fst snd trace replay]; rewrite ?app_nil_r; reflexivity.
Qed.

Lemma transition_frame P chat text (w : World KvValue BotCommand) :
  let r := dispatch P chat (loaded w chat) text (mkWorld ∅ (Some chat) []) in
  transition P chat text w
  = (fst r,
     mkWorld (replay (trace (snd r)) (kv w)) (Some chat)
       (trace w ++ SendTypingIndicator (Some chat) :: KvGet chat :: trace (snd r))).
Proof.
  cbn zeta. rewrite transition_unfold, dispatch_frame.
  rewrite <- app_assoc. reflexivity.
Qed.

(** A text without a leading [/] is none of the literals that have one. *)
Lemma no_slash_not_literal text literal :
  startsWith text "/" = false -> startsWith literal "/" = true ->
  (text =? literal) = false.
Proof.
  intros Htext Hlit. destruct (String.eqb_spec text literal); [|reflexivity].
  subst. congruence.
Qed.

Ltac no_slash H :=
  rewrite ?(no_slash_not_literal _ "/start" H eq_refl),
    ?(no_slash_not_literal _ "/info" H eq_refl),
    ?(no_slash_not_literal _ "/installation_id" H eq_refl),
    ?(no_slash_not_literal _ "/logout" H eq_refl),
    ?(no_slash_not_literal _ "/login" H eq_refl).

(** Start of a proof about one state: load it and expose the blocks. *)
Ltac in_state H :=
  rewrite transition_unfold; unfold loaded; rewrite H;
  cbn [default from_option id]; unfold_blocks;
  cbn [is_logged_out is_logged_in first_return].

(** The texts that a command block of the handler compares with. *)
Definition handled_command (text : string) : bool :=
  (text =? "/start") || (text =? "/info") || (text =? "/installation_id")
  || (text =? "/logout") || (text =? "/login").

Lemma handled_command_false text :
  handled_command text = false ->
  (text =? "/start") = false /\ (text =? "/info") = false
  /\ (text =? "/installation_id") = false
  /\ (text =? "/logout") = false /\ (text =? "/login") = false.
Proof.
  unfold handled_command. intros H.
  repeat (apply orb_false_elim in H; destruct H as [H ?]). auto.
Qed.

(** In state [logged_in], a text that no command block compares with goes
    to the search. *)
Lemma logged_in_search P chat text (w : World KvValue BotCommand)
  installationId countryCode :
  stored w chat = Some (logged_in installationId countryCode) ->
  handled_command text = false ->
  transition P chat text w
  = block_search P (logged_in installationId countryCode) text
      (mkWorld (kv w) (Some chat)
         (trace w ++ [SendTypingIndicator (Some chat); KvGet chat])).
Proof.
  intros Hstate Htext.
  apply handled_command_false in Htext as (H1 & H2 & H3 & H4 & H5).
  rewrite transition_unfold. unfold loaded. rewrite Hstate.
  cbn [default from_option id].
  unfold dispatch, block_start, block_info, block_installation_id,
    block_awaiting_installation_id, block_awaiting_country_code,
    block_logout, block_login, block_awaiting_phone_no, block_awaiting_otp.
  rewrite H1, H2, H3, H4, H5. reflexivity.
Qed.

(** No block reports the [/stop] event. *)
Lemma dispatch_never_stop P chat v text tg :
  ~ In (ReportEvent cmd_stop)
      (trace (snd (dispatch P chat v text (mkWorld ∅ tg [])))).
Proof.
  unfold_blocks.
  destruct v; cbn [is_logged_out is_logged_in first_return].
  all: run_monad.
  all: split_cases; cbn [fst snd trace In]; intuition discriminate.
Qed.

(** The blocks depend on the provider through the answers to the calls
    that they make. *)
Lemma dispatch_same_answer P1 P2 chat v text tg :
  (forall a,
      In a (trace (snd (dispatch P1 chat v text (mkWorld ∅ tg [])))) ->
      same_answer P1 P2 a) ->
  dispatch P1 chat v text (mkWorld ∅ tg [])
  = dispatch P2 chat v text (mkWorld ∅ tg []).
Proof.
  unfold_blocks.
  destruct v; cbn [is_logged_out is_logged_in first_return]; intros Hsame.
  all: repeat match goal with
         | |- context [String.eqb ?a ?b] => destruct (String.eqb a b) eqn:?
         | |- context [startsWith ?a ?b] => destruct (startsWith a b) eqn:?
         end; cbn [negb]; try reflexivity.
  - assert (Provider.login P1 text = Provider.login P2 text) as Hcall.
    { apply (Hsame (Login text)). clear Hsame. run_monad. split_cases.
      all: cbn [snd trace In]; auto. }
    clear Hsame. run_monad. rewrite <- Hcall. reflexivity.
  - assert (Provider.verifyOtp P1 phoneNumber loginResponse text
            = Provider.verifyOtp P2 phoneNumber loginResponse text) as Hcall.
    { apply (Hsame (VerifyOtp phoneNumber loginResponse text)). clear Hsame.
      run_monad. split_cases. all: cbn [snd trace In]; auto. }
    clear Hsame. run_monad. rewrite <- Hcall. reflexivity.
  - match goal with
    | |- context [Provider.search P1 ?d] =>
        assert (Provider.search P1 d = Provider.search P2 d) as Hcall
    end.
    { match goal with
      | |- Provider.search P1 ?d = _ => apply (Hsame (Search d))
      end.
      clear Hsame. run_monad. split_cases. all: cbn [snd trace In]; auto. }
    clear Hsame. run_monad. rewrite <- Hcall. reflexivity.
Qed.

(** What the request handler adds to the trace. *)
Lemma webhook_performed P request (w : World KvValue BotCommand) :
  performed (webhook P request) w
  = if negb (Request.method request =? "POST") then []
    else
      let update := default Update.empty (Request.json request) in
      match kicked (Update.my_chat_member update) with
      | Some chat => [KvDelete chat; ReportEvent cmd_stop]
      | None =>
          match Update.message update with
          | Some message =>
              if truthy_opt (Message.text message)
              then performed
                     (transition P (Message.chat_id message)
                        (default "" (Message.text message))) w
              else []
          | None => []
          end
      end.
Proof.
  unfold webhook.
  destruct (negb (Request.method request =? "POST"));
    [apply performed_app; cbn; rewrite app_nil_r; reflexivity|].
  cbn zeta.
  destruct (kicked _);
    [apply performed_app; run_monad; reflexivity|].
  destruct (Update.message _) as [message|];
    [|apply performed_app; cbn; rewrite app_nil_r; reflexivity].
  destruct (truthy_opt _);
    [reflexivity | apply performed_app; cbn; rewrite app_nil_r; reflexivity].
Qed.

Lemma transition_performed P chat text (w : World KvValue BotCommand) :
  performed (transition P chat text) w
  = SendTypingIndicator (Some chat) :: KvGet chat
    :: trace (snd (dispatch P chat (loaded w chat) text
                     (mkWorld ∅ (Some chat) []))).
Proof.
  apply performed_app. rewrite transition_frame. reflexivity.
Qed.

(** ** The request handler around the state machine *)

(** A POST whose update is not a kick and carries a message with a
    non-empty text runs the state machine on that text. *)
Lemma webhook_message P chat text my_chat_member (w : World KvValue BotCommand) :
  kicked my_chat_member = None ->
  text <> "" ->
  webhook P
    {| Request.method := "POST";
       Request.json :=
         Some {| Update.message :=
                   Some {| Message.chat_id := chat; Message.text := Some text |};
                 Update.my_chat_member := my_chat_member |} |} w
  = transition P chat text w.
Proof.
  intros Hkicked Htext. unfold webhook.
  cbn [Request.method Request.json negb default from_option id
       Update.message Update.my_chat_member Message.text Message.chat_id].
  rewrite Hkicked.
  unfold truthy_opt, truthy.
  destruct (String.eqb_spec text ""); [contradiction | reflexivity].
Qed.

(** A message without a text, or with the empty text, is answered with an
    empty response before the state machine is entered. *)
Lemma webhook_no_text P chat text my_chat_member (w : World KvValue BotCommand) :
  kicked my_chat_member = None ->
  text = None \/ text = Some "" ->
  webhook P
    {| Request.method := "POST";
       Request.json :=
         Some {| Update.message :=
                   Some {| Message.chat_id := chat; Message.text := text |};
                 Update.my_chat_member := my_chat_member |} |} w
  = (inr EmptyResponse, w).
Proof.
  intros Hkicked Htext. unfold webhook.
  cbn [Request.method Request.json negb default from_option id
       Update.message Update.my_chat_member Message.text Message.chat_id].
  rewrite Hkicked. destruct Htext as [-> | ->]; reflexivity.
Qed.

(** A leading [/] takes a text out of the multi-step flows: when it is none
    of the handled commands and the chat is not logged in, the reply asks
    to log in first and nothing is written. *)
Lemma slash_leaves_flow P chat text (w : World KvValue BotCommand) :
  startsWith text "/" = true ->
  handled_command text = false ->
  is_logged_in (loaded w chat) = false ->
  transition P chat text w
  = (inr (SendMessage (Some chat) false msg_login_first),
     mkWorld (kv w) (Some chat)
       (trace w ++ [SendTypingIndicator (Some chat); KvGet chat])).
Proof.
  intros Hslash Htext Hstate.
  apply handled_command_false in Htext as (H1 & H2 & H3 & H4 & H5).
  rewrite transition_unfold. unfold_blocks.
  rewrite H1, H2, H3, H4, H5, Hslash.
  destruct (loaded w chat); try discriminate Hstate;
    cbn -[app]; run_monad; reflexivity.
Qed.

(** An error thrown by the handler reaches [onError], which reports it and
    replies with the message of the error's response data, or with a
    fallback text. *)
Lemma serve_thrown P request (w w' : World KvValue BotCommand) error :
  webhook P request w = (inl error, w') ->
  serve P request w = onError error w'.
Proof.
  intros Hthrown. unfold serve, try_catch. rewrite Hthrown. reflexivity.
Qed.

End IndexFacts.

Module PartBFacts.
Import Index.

Definition loaded := IndexFacts.loaded.

Lemma transition_unfold_B P chat text (w : World KvValue BotCommand) :
  PartB.transition P chat text w =
  PartB.dispatch P chat (loaded w chat) text
    (mkWorld (kv w) (Some chat)
       (trace w ++ [SendTypingIndicator (Some chat); KvGet chat])).
Proof.
  unfold PartB.transition. run_monad. reflexivity.
Qed.

Ltac unfold_blocks :=
  unfold PartB.dispatch, PartB.block_start, PartB.block_login,
    PartB.block_awaiting_country_code;
  IndexFacts.unfold_blocks.

Ltac in_state H :=
  rewrite transition_unfold_B; unfold loaded, IndexFacts.loaded;
  rewrite H; cbn [default from_option id]; unfold_blocks;
  cbn [is_logged_out is_logged_in first_return].

End PartBFacts.

Module PartAFacts.
Import PartA.

Definition loaded (w : World KvValue EventName) (chat_id : Z) : KvValue :=
  default logged_out (stored w chat_id).

Lemma transition_unfold_A P chat text (w : World KvValue EventName) :
  transition P chat text w =
  dispatch P chat (loaded w chat) text
    (mkWorld (kv w) (Some chat)
       (trace w ++ [SendTypingIndicator (Some chat); KvGet chat])).
Proof.
  unfold transition. run_monad. reflexivity.
Qed.

Ltac unfold_blocks :=
  unfold dispatch, block_start, block_logout, block_login,
    block_awaiting_phone_no, block_awaiting_otp, block_search, text_is.

End PartAFacts.

(** ** Sample values *)

Module Sample.
Import Index.

Definition loginResponse : LoginResponse.t :=
  {| LoginResponse.status := 1;
     LoginResponse.message := "Sent";
     LoginResponse.opaqueToken := "T";
     LoginResponse.parsedCountryCode := "IN" |}.

Definition otpResponse : OtpResponse.t :=
  {| OtpResponse.suspended := None;
     OtpResponse.status := Some 2%Z;
     OtpResponse.installationId := Some "a1i0X--token";
     OtpResponse.message := None |}.

Definition account_error : JsError.t :=
  {| JsError.name := "AxiosError";
     JsError.message := "Request failed with status code 401";
     JsError.response :=
       Some {| AxiosResponse.data :=
                 Some {| ResponseData.status := Some 40101%Z;
                         ResponseData.message := Some "Unauthorized" |} |} |}.

Definition other_error : JsError.t :=
  {| JsError.name := "AxiosError";
     JsError.message := "Request failed with status code 400";
     JsError.response :=
       Some {| AxiosResponse.data :=
                 Some {| ResponseData.status := Some 40002%Z;
                         ResponseData.message := Some "Bad request" |} |} |}.

(** A provider that sends the OTP, accepts it, and whose search wraps
    [error]. *)
Definition provider (error : JsError.t) : Provider.t :=
  {| Provider.login := fun _ => inr loginResponse;
     Provider.verifyOtp := fun _ _ _ => inr otpResponse;
     Provider.search := fun _ =>
       inr {| SearchResult.json := Some error;
              SearchResult.getName := "Unknown" |} |}.

(** A provider whose search finds a name. *)
Definition finder : Provider.t :=
  {| Provider.login := fun _ => inr loginResponse;
     Provider.verifyOtp := fun _ _ _ => inr otpResponse;
     Provider.search := fun _ =>
       inr {| SearchResult.json := None;
              SearchResult.getName := "Jane Doe" |} |}.

(** A world where chat 7 has the record [v] and nothing has happened yet. *)
Definition world (v : KvValue) : World KvValue BotCommand :=
  mkWorld {[ 7%Z := v ]} None [].

(** A world without any record. *)
Definition fresh : World KvValue BotCommand := mkWorld ∅ None [].

End Sample.

(** ** Scenarios *)

Module Scenarios.
Import Index.

(** No record, [/login]: the chat now awaits the phone number. *)
Example login_from_nothing :
  transition Sample.finder 7 "/login" Sample.fresh
  = (inr (SendMessage (Some 7%Z) false msg_enter_phone),
     mkWorld {[ 7%Z := awaiting_phone_no ]} (Some 7%Z)
       [SendTypingIndicator (Some 7%Z); KvGet 7%Z; KvSet 7%Z awaiting_phone_no]).
Proof. reflexivity. Qed.

(** Awaiting the phone number, an accepted number: the chat now awaits the
    OTP, with the number and the login response kept as they are. *)
Example phone_number_accepted :
  stored (snd (transition Sample.finder 7 "+15551234567"
                 (Sample.world awaiting_phone_no))) 7
  = Some (awaiting_otp "+15551234567" Sample.loginResponse).
Proof. reflexivity. Qed.

(** Logged in, a number that the provider finds: the reply is the name. *)
Example search_finds_name :
  transition Sample.finder 7 "+919999999999" (Sample.world (logged_in "I" "IN"))
  = (inr (SendMessage (Some 7%Z) false "Jane Doe"),
     mkWorld {[ 7%Z := logged_in "I" "IN" ]} (Some 7%Z)
       [SendTypingIndicator (Some 7%Z); KvGet 7%Z;
        Search {| SearchData.number := "+919999999999";
                  SearchData.countryCode := "IN";
                  SearchData.installationId := "I" |};
        ReportEvent cmd_search]).
Proof. reflexivity. Qed.

(** The oldest revision has no test on a leading [/]: while it awaits the
    phone number, [/info] is taken for a badly formatted number. *)
Example oldest_revision_takes_any_text :
  fst (PartA.transition Sample.finder 7 (Some "/info")
         (mkWorld {[ 7%Z := PartA.awaiting_phone_no ]} None []))
  = inr (SendMessage (Some 7%Z) false msg_phone_format).
Proof. reflexivity. Qed.

(** The latest revision refuses a country code of three characters. *)
Example latest_revision_refuses_three_characters :
  PartB.transition Sample.finder 7 "USA" (Sample.world (awaiting_country_code "I"))
  = (inr (SendMessage (Some 7%Z) false PartB.msg_invalid_country_code),
     mkWorld {[ 7%Z := awaiting_country_code "I" ]} (Some 7%Z)
       [SendTypingIndicator (Some 7%Z); KvGet 7%Z]).
Proof. reflexivity. Qed.

(** [length] counts UTF-16 code units: one for a two-byte character, two
    for a character beyond U+FFFF. *)
Example length_of_e_acute :
  js_length (String "195" (String "169" "")) = 1%nat.
Proof. reflexivity. Qed.

Example length_of_an_emoji :
  js_length (String "240" (String "159" (String "152" (String "128" ""))))
  = 2%nat.
Proof. reflexivity. Qed.

(** The latest revision refuses the single character U+00E9 as a country
    code, although its UTF-8 encoding has two bytes. *)
Example latest_revision_refuses_one_character :
  PartB.transition Sample.finder 7 (String "195" (String "169" ""))
    (Sample.world (awaiting_country_code "I"))
  = (inr (SendMessage (Some 7%Z) false PartB.msg_invalid_country_code),
     mkWorld {[ 7%Z := awaiting_country_code "I" ]} (Some 7%Z)
       [SendTypingIndicator (Some 7%Z); KvGet 7%Z]).
Proof. reflexivity. Qed.

(** A thrown search error is answered by [onError]. *)
Example other_search_error_reply :
  fst (serve (Sample.provider Sample.other_error)
         {| Request.method := "POST";
            Request.json :=
              Some {| Update.message :=
                        Some {| Message.chat_id := 7;
                                Message.text := Some "+919999999999" |};
                      Update.my_chat_member := None |} |}
         (Sample.world (logged_in "I" "IN")))
  = inr (SendMessage (Some 7%Z) false "Bad request").
Proof. reflexivity. Qed.

End Scenarios.

(** ** The claims *)

Section Claims.
Import Index.
Import IndexFacts.

(** C3, [/logout]: in [src/index.ts] and in both revisions of
    [src/unnamed/part_000], from every world (whatever record the chat has,
    or none), a message whose text is [/logout] deletes the record of the
    chat, reports the [/logout] event and replies with the logout
    confirmation; afterwards the chat has no record. *)
Theorem logout_deletes_session (P : Provider.t) (chat : Z) :
  (forall w : World KvValue BotCommand,
     transition P chat "/logout" w
     = (inr (SendMessage (Some chat) false msg_logged_out),
        mkWorld (delete chat (kv w)) (Some chat)
          (trace w ++ [SendTypingIndicator (Some chat); KvGet chat;
                       KvDelete chat; ReportEvent cmd_logout]))
     /\ stored (snd (transition P chat "/logout" w)) chat = None)
  /\ (forall w : World KvValue BotCommand,
     PartB.transition P chat "/logout" w
     = (inr (SendMessage (Some chat) false msg_logged_out),
        mkWorld (delete chat (kv w)) (Some chat)
          (trace w ++ [SendTypingIndicator (Some chat); KvGet chat;
                       KvDelete chat; ReportEvent cmd_logout]))
     /\ stored (snd (PartB.transition P chat "/logout" w)) chat = None)
  /\ (forall w : World PartA.KvValue PartA.EventName,
     PartA.transition P chat (Some "/logout") w
     = (inr (SendMessage (Some chat) false msg_logged_out),
        mkWorld (delete chat (kv w)) (Some chat)
          (trace w ++ [SendTypingIndicator (Some chat); KvGet chat;
                       KvDelete chat; ReportEvent PartA.ev_logout]))
     /\ stored (snd (PartA.transition P chat (Some "/logout") w)) chat = None).
Proof.
  repeat split.
  - rewrite transition_unfold. unfold_blocks.
    destruct (loaded w chat); cbn -[app]; run_monad; reflexivity.
  - rewrite transition_unfold. unfold_blocks.
    destruct (loaded w chat); cbn -[app]; run_monad; unfold stored;
      apply lookup_delete_eq.
  - rewrite PartBFacts.transition_unfold_B. PartBFacts.unfold_blocks.
    destruct (PartBFacts.loaded w chat); cbn -[app]; run_monad; reflexivity.
  - rewrite PartBFacts.transition_unfold_B. PartBFacts.unfold_blocks.
    destruct (PartBFacts.loaded w chat); cbn -[app]; run_monad; unfold stored;
      apply lookup_delete_eq.
  - rewrite PartAFacts.transition_unfold_A. PartAFacts.unfold_blocks.
    destruct (PartAFacts.loaded w chat); cbn -[app]; run_monad; reflexivity.
  - rewrite PartAFacts.transition_unfold_A. PartAFacts.unfold_blocks.
    destruct (PartAFacts.loaded w chat); cbn -[app]; run_monad; unfold stored;
      apply lookup_delete_eq.
Qed.

(** The country-code step of [src/index.ts] takes any text without a
    leading [/]. *)
Lemma index_country_code_run (P : Provider.t) (chat : Z) (text : string)
  (w : World KvValue BotCommand) (installationId : string) :
  stored w chat = Some (awaiting_country_code installationId) ->
  startsWith text "/" = false ->
  transition P chat text w
  = (inr (SendMessage (Some chat) false msg_success),
     mkWorld (<[chat := logged_in installationId text]> (kv w)) (Some chat)
       (trace w ++ [SendTypingIndicator (Some chat); KvGet chat;
                    KvSet chat (logged_in installationId text)])).
Proof.
  intros Hstate Hslash.
  in_state Hstate. no_slash Hslash. rewrite Hslash. cbn [negb].
  run_monad. reflexivity.
Qed.

(** C1, as amended: in state [awaiting_country_code], for every text
    without a leading [/]: the latest revision ([src/unnamed/part_000],
    second file) replies with the country-code format error and leaves the
    store as it is when the [length] of the text (its number of UTF-16 code
    units) is not two, and otherwise
    stores [logged_in] with the stored installation id and the text as
    country code and replies with the success message; [src/index.ts] does
    not look at the length and always does the latter. *)
Theorem country_code_step (P : Provider.t) (chat : Z) (text : string)
  (w : World KvValue BotCommand) (installationId : string) :
  stored w chat = Some (awaiting_country_code installationId) ->
  startsWith text "/" = false ->
  PartB.transition P chat text w
  = (if (js_length text =? 2)%nat
     then (inr (SendMessage (Some chat) false msg_success),
           mkWorld (<[chat := logged_in installationId text]> (kv w)) (Some chat)
             (trace w ++ [SendTypingIndicator (Some chat); KvGet chat;
                          KvSet chat (logged_in installationId text)]))
     else (inr (SendMessage (Some chat) false PartB.msg_invalid_country_code),
           mkWorld (kv w) (Some chat)
             (trace w ++ [SendTypingIndicator (Some chat); KvGet chat])))
  /\ transition P chat text w
     = (inr (SendMessage (Some chat) false msg_success),
        mkWorld (<[chat := logged_in installationId text]> (kv w)) (Some chat)
          (trace w ++ [SendTypingIndicator (Some chat); KvGet chat;
                       KvSet chat (logged_in installationId text)])).
Proof.
  intros Hstate Hslash. split.
  - PartBFacts.in_state Hstate. no_slash Hslash. rewrite Hslash. cbn [negb].
    destruct (js_length text =? 2)%nat; cbn [negb]; run_monad; reflexivity.
  - apply index_country_code_run; assumption.
Qed.

Lemma country_code_step_witness :
  PartB.transition Sample.finder 7 "IN" (Sample.world (awaiting_country_code "I"))
  = (inr (SendMessage (Some 7%Z) false msg_success),
     mkWorld (<[7%Z := logged_in "I" "IN"]> {[ 7%Z := awaiting_country_code "I" ]})
       (Some 7%Z)
       [SendTypingIndicator (Some 7%Z); KvGet 7%Z; KvSet 7%Z (logged_in "I" "IN")]).
Proof.
  apply (country_code_step Sample.finder 7 "IN"
           (Sample.world (awaiting_country_code "I")) "I");
    reflexivity.
Defined.

(** C1 as stated fails on [src/index.ts]: in state [awaiting_country_code]
    the three-character text [USA] is not answered with a format error and
    the state does not stay [awaiting_country_code]; the chat is logged in
    with country code [USA]. *)
Lemma country_code_not_validated_in_index :
  startsWith "USA" "/" = false
  /\ js_length "USA" <> 2%nat
  /\ transition Sample.finder 7 "USA" (Sample.world (awaiting_country_code "I"))
     = (inr (SendMessage (Some 7%Z) false msg_success),
        mkWorld (<[7%Z := logged_in "I" "USA"]> {[ 7%Z := awaiting_country_code "I" ]})
          (Some 7%Z)
          [SendTypingIndicator (Some 7%Z); KvGet 7%Z;
           KvSet 7%Z (logged_in "I" "USA")])
  /\ stored (snd (transition Sample.finder 7 "USA"
                    (Sample.world (awaiting_country_code "I")))) 7
     <> Some (awaiting_country_code "I").
Proof.
  pose proof (index_country_code_run Sample.finder 7 "USA"
                (Sample.world (awaiting_country_code "I")) "I"
                eq_refl eq_refl) as Hrun.
  split; [reflexivity|]. split; [discriminate|]. split; [exact Hrun|].
  rewrite Hrun. unfold stored. cbn [snd kv].
  rewrite lookup_insert_eq. discriminate.
Qed.

(** C2, OTP verification: in state [awaiting_otp], for every text without
    a leading [/], when [verifyOtp] returns a response that is not flagged
    as suspended, whose status is neither 11 nor 7 and whose installation
    id is a non-empty string, the handler stores [logged_in] with that
    installation id and with the [parsedCountryCode] of the stored login
    response, reports the [/login] event and replies with the success
    message. *)
Theorem otp_success_logs_in (P : Provider.t) (chat : Z) (text : string)
  (w : World KvValue BotCommand) (phoneNumber : string)
  (loginResponse : LoginResponse.t) (otpResponse : OtpResponse.t)
  (installationId : string) :
  stored w chat = Some (awaiting_otp phoneNumber loginResponse) ->
  startsWith text "/" = false ->
  Provider.verifyOtp P phoneNumber loginResponse text = inr otpResponse ->
  OtpResponse.suspended otpResponse <> Some true ->
  OtpResponse.status otpResponse <> Some 11%Z ->
  OtpResponse.status otpResponse <> Some 7%Z ->
  OtpResponse.installationId otpResponse = Some installationId ->
  installationId <> "" ->
  let session :=
    logged_in installationId (LoginResponse.parsedCountryCode loginResponse) in
  transition P chat text w
  = (inr (SendMessage (Some chat) false msg_success),
     mkWorld (<[chat := session]> (kv w)) (Some chat)
       (trace w ++ [SendTypingIndicator (Some chat); KvGet chat;
                    VerifyOtp phoneNumber loginResponse text;
                    KvSet chat session; ReportEvent cmd_login]))
  /\ stored (snd (transition P chat text w)) chat = Some session.
Proof.
  intros Hstate Hslash Hverify Hsuspended H11 H7 Hid Hnonempty session.
  assert (Hrun : transition P chat text w
    = (inr (SendMessage (Some chat) false msg_success),
       mkWorld (<[chat := session]> (kv w)) (Some chat)
         (trace w ++ [SendTypingIndicator (Some chat); KvGet chat;
                      VerifyOtp phoneNumber loginResponse text;
                      KvSet chat session; ReportEvent cmd_login]))).
  { in_state Hstate. no_slash Hslash. rewrite Hslash. cbn [negb].
    run_monad. rewrite Hverify. run_monad.
    destruct otpResponse as [suspended status oid message].
    cbn [OtpResponse.suspended OtpResponse.status OtpResponse.installationId
         OtpResponse.message] in *.
    subst oid.
    assert (default false suspended = false) as ->
      by (destruct suspended as [[]|]; [congruence | reflexivity | reflexivity]).
    assert (status_is status 11 = false) as ->.
    { destruct status as [z|]; [|reflexivity]. cbn.
      apply Z.eqb_neq. congruence. }
    assert (status_is status 7 = false) as ->.
    { destruct status as [z|]; [|reflexivity]. cbn.
      apply Z.eqb_neq. congruence. }
    assert (truthy installationId = true) as Htruthy.
    { unfold truthy. destruct (String.eqb_spec installationId "");
        [contradiction | reflexivity]. }
    cbn [truthy_opt]. rewrite Htruthy. cbn [negb default from_option id].
    run_monad. reflexivity. }
  split; [exact Hrun|].
  rewrite Hrun. unfold stored. cbn [snd kv]. apply lookup_insert_eq.
Qed.

Lemma otp_success_logs_in_witness :
  stored (snd (transition Sample.finder 7 "123456"
                 (Sample.world (awaiting_otp "+15551234567" Sample.loginResponse))))
    7
  = Some (logged_in "a1i0X--token" "IN").
Proof.
  apply (otp_success_logs_in Sample.finder 7 "123456"
           (Sample.world (awaiting_otp "+15551234567" Sample.loginResponse))
           "+15551234567" Sample.loginResponse Sample.otpResponse
           "a1i0X--token");
    first [reflexivity | discriminate].
Defined.

(** C4, phone-number format: in state [awaiting_phone_no], for every text
    that starts neither with [/] nor with [+], the handler replies with the
    phone-number format error and does nothing else: the store is left as
    it is, there is no write, no delete and no call to [login]. *)
Theorem phone_format_error (P : Provider.t) (chat : Z) (text : string)
  (w : World KvValue BotCommand) :
  stored w chat = Some awaiting_phone_no ->
  startsWith text "/" = false ->
  startsWith text "+" = false ->
  transition P chat text w
  = (inr (SendMessage (Some chat) false msg_phone_format),
     mkWorld (kv w) (Some chat)
       (trace w ++ [SendTypingIndicator (Some chat); KvGet chat]))
  /\ writes_nothing (performed (transition P chat text) w)
  /\ (forall phoneNumber,
        ~ In (Login phoneNumber) (performed (transition P chat text) w)).
Proof.
  intros Hstate Hslash Hplus.
  assert (Hrun : transition P chat text w
    = (inr (SendMessage (Some chat) false msg_phone_format),
       mkWorld (kv w) (Some chat)
         (trace w ++ [SendTypingIndicator (Some chat); KvGet chat]))).
  { in_state Hstate. no_slash Hslash. rewrite Hslash, Hplus. cbn [negb].
    run_monad. reflexivity. }
  split; [exact Hrun|].
  rewrite (performed_app _ w [SendTypingIndicator (Some chat); KvGet chat])
    by (rewrite Hrun; reflexivity).
  split.
  - intros a [<-|[<-|[]]]; exact I.
  - intros phoneNumber [H|[H|[]]]; discriminate.
Qed.

Lemma phone_format_error_witness :
  transition Sample.finder 7 "15551234567" (Sample.world awaiting_phone_no)
  = (inr (SendMessage (Some 7%Z) false msg_phone_format),
     mkWorld {[ 7%Z := awaiting_phone_no ]} (Some 7%Z)
       [SendTypingIndicator (Some 7%Z); KvGet 7%Z]).
Proof.
  apply (phone_format_error Sample.finder 7 "15551234567"
           (Sample.world awaiting_phone_no));
    reflexivity.
Defined.

(** C5, [/login]: a message whose text is [/login] is answered, when the
    loaded state is [logged_in], with the already-logged-in reply and
    without any write or delete, and from every other state (or no record)
    by storing [awaiting_phone_no] and asking for the phone number. *)
Theorem login_command (P : Provider.t) (chat : Z)
  (w : World KvValue BotCommand) :
  transition P chat "/login" w
  = (if is_logged_in (loaded w chat)
     then (inr (SendMessage (Some chat) false msg_already_logged_in),
           mkWorld (kv w) (Some chat)
             (trace w ++ [SendTypingIndicator (Some chat); KvGet chat]))
     else (inr (SendMessage (Some chat) false msg_enter_phone),
           mkWorld (<[chat := awaiting_phone_no]> (kv w)) (Some chat)
             (trace w ++ [SendTypingIndicator (Some chat); KvGet chat;
                          KvSet chat awaiting_phone_no])))
  /\ (if is_logged_in (loaded w chat)
      then writes_nothing (performed (transition P chat "/login") w)
      else stored (snd (transition P chat "/login" w)) chat
           = Some awaiting_phone_no).
Proof.
  assert (Hrun : transition P chat "/login" w
    = (if is_logged_in (loaded w chat)
       then (inr (SendMessage (Some chat) false msg_already_logged_in),
             mkWorld (kv w) (Some chat)
               (trace w ++ [SendTypingIndicator (Some chat); KvGet chat]))
       else (inr (SendMessage (Some chat) false msg_enter_phone),
             mkWorld (<[chat := awaiting_phone_no]> (kv w)) (Some chat)
               (trace w ++ [SendTypingIndicator (Some chat); KvGet chat;
                            KvSet chat awaiting_phone_no])))).
  { rewrite transition_unfold. unfold_blocks.
    destruct (loaded w chat); cbn -[app]; run_monad; reflexivity. }
  split; [exact Hrun|].
  destruct (is_logged_in (loaded w chat)) eqn:Hin.
  - rewrite (performed_app _ w [SendTypingIndicator (Some chat); KvGet chat])
      by (rewrite Hrun; reflexivity).
    intros a [<-|[<-|[]]]; exact I.
  - rewrite Hrun. unfold stored. cbn [snd kv]. apply lookup_insert_eq.
Qed.

(** C9, [/start]: a message whose text is [/start] is answered with the
    onboarding text from every state; the store is left as it is, without
    any write or delete; and the [/start] event is reported exactly when
    the loaded state is [logged_out]. *)
Theorem start_command (P : Provider.t) (chat : Z)
  (w : World KvValue BotCommand) :
  transition P chat "/start" w
  = (inr (SendMessage (Some chat) false msg_start),
     mkWorld (kv w) (Some chat)
       (trace w ++ [SendTypingIndicator (Some chat); KvGet chat]
          ++ (if is_logged_out (loaded w chat) then [ReportEvent cmd_start] else [])))
  /\ writes_nothing (performed (transition P chat "/start") w)
  /\ (In (ReportEvent cmd_start) (performed (transition P chat "/start") w)
      <-> loaded w chat = logged_out).
Proof.
  assert (Hrun : transition P chat "/start" w
    = (inr (SendMessage (Some chat) false msg_start),
       mkWorld (kv w) (Some chat)
         (trace w ++ [SendTypingIndicator (Some chat); KvGet chat]
            ++ (if is_logged_out (loaded w chat)
                then [ReportEvent cmd_start] else [])))).
  { rewrite transition_unfold. unfold_blocks.
    destruct (loaded w chat); cbn -[app]; run_monad; reflexivity. }
  split; [exact Hrun|].
  rewrite (performed_app _ w _ (f_equal (fun r => trace (snd r)) Hrun)).
  split.
  - destruct (loaded w chat); cbn; intros a H;
      repeat (destruct H as [<-|H]; [exact I|]); destruct H.
  - destruct (loaded w chat); cbn; intuition (discriminate || reflexivity).
Qed.

(** C7, wrapped search errors: in state [logged_in], when the text goes to
    the search and [search] returns a result that wraps an error: if the
    status of the error's response data is 40101 or 42601, the reply is the
    formatted account-error text, which points back to [/login], and the
    store is left as it is; for every other wrapped error, the handler
    throws that error. *)
Theorem search_error_handling (P : Provider.t) (chat : Z) (text : string)
  (w : World KvValue BotCommand) (installationId countryCode : string)
  (searchResult : SearchResult.t) (error : JsError.t) :
  let searchData :=
    {| SearchData.number := text;
       SearchData.countryCode := countryCode;
       SearchData.installationId := installationId |} in
  let after :=
    mkWorld (kv w) (Some chat)
      (trace w ++ [SendTypingIndicator (Some chat); KvGet chat;
                   Search searchData]) in
  stored w chat = Some (logged_in installationId countryCode) ->
  handled_command text = false ->
  Provider.search P searchData = inr searchResult ->
  SearchResult.json searchResult = Some error ->
  (error_status error = Some 40101%Z \/ error_status error = Some 42601%Z ->
   transition P chat text w
   = (inr (SendMessage (Some chat) true
             (msg_account_error (error_apiMessage error))), after))
  /\ (error_status error <> Some 40101%Z ->
      error_status error <> Some 42601%Z ->
      transition P chat text w = (inl error, after)).
Proof.
  intros searchData after Hstate Htext Hsearch Hjson.
  rewrite (logged_in_search P chat text w _ _ Hstate Htext).
  unfold block_search. fold searchData. run_monad.
  rewrite Hsearch. run_monad. rewrite Hjson.
  split.
  - intros [Hstatus|Hstatus]; rewrite Hstatus; reflexivity.
  - intros H1 H2.
    assert (status_is (error_status error) 40101 = false) as ->.
    { destruct (error_status error) as [z|]; [|reflexivity]. cbn.
      apply Z.eqb_neq. congruence. }
    assert (status_is (error_status error) 42601 = false) as ->.
    { destruct (error_status error) as [z|]; [|reflexivity]. cbn.
      apply Z.eqb_neq. congruence. }
    reflexivity.
Qed.

Lemma search_error_handling_witness :
  transition (Sample.provider Sample.account_error) 7 "+919999999999"
    (Sample.world (logged_in "I" "IN"))
  = (inr (SendMessage (Some 7%Z) true (msg_account_error "Unauthorized")),
     mkWorld {[ 7%Z := logged_in "I" "IN" ]} (Some 7%Z)
       [SendTypingIndicator (Some 7%Z); KvGet 7%Z;
        Search {| SearchData.number := "+919999999999";
                  SearchData.countryCode := "IN";
                  SearchData.installationId := "I" |}])
  /\ transition (Sample.provider Sample.other_error) 7 "+919999999999"
       (Sample.world (logged_in "I" "IN"))
     = (inl Sample.other_error,
        mkWorld {[ 7%Z := logged_in "I" "IN" ]} (Some 7%Z)
          [SendTypingIndicator (Some 7%Z); KvGet 7%Z;
           Search {| SearchData.number := "+919999999999";
                     SearchData.countryCode := "IN";
                     SearchData.installationId := "I" |}]).
Proof.
  split.
  - apply (search_error_handling (Sample.provider Sample.account_error) 7
             "+919999999999" (Sample.world (logged_in "I" "IN")) "I" "IN"
             {| SearchResult.json := Some Sample.account_error;
                SearchResult.getName := "Unknown" |}
             Sample.account_error eq_refl eq_refl eq_refl eq_refl).
    left. reflexivity.
  - apply (search_error_handling (Sample.provider Sample.other_error) 7
             "+919999999999" (Sample.world (logged_in "I" "IN")) "I" "IN"
             {| SearchResult.json := Some Sample.other_error;
                SearchResult.getName := "Unknown" |}
             Sample.other_error eq_refl eq_refl eq_refl eq_refl);
      discriminate.
Defined.

(** C10, [/stop] and [/search]: both are members of [BotCommand], yet in
    state [logged_in] a message whose text is [/stop] or [/search] runs the
    search block, which calls [search] with that text as the number; and a
    request reports the [/stop] event exactly when it is a POST whose
    [my_chat_member] has the new status [kicked], whatever the text of its
    message. *)
Theorem stop_and_search_are_looked_up (P : Provider.t) (chat : Z)
  (text : string) (w : World KvValue BotCommand)
  (installationId countryCode : string) (request : Request.t) :
  stored w chat = Some (logged_in installationId countryCode) ->
  text = command_text cmd_stop \/ text = command_text cmd_search ->
  transition P chat text w
  = block_search P (logged_in installationId countryCode) text
      (mkWorld (kv w) (Some chat)
         (trace w ++ [SendTypingIndicator (Some chat); KvGet chat]))
  /\ (exists rest,
        performed (transition P chat text) w
        = ([SendTypingIndicator (Some chat); KvGet chat;
            Search {| SearchData.number := text;
                      SearchData.countryCode := countryCode;
                      SearchData.installationId := installationId |}] ++ rest)%list)
  /\ (In (ReportEvent cmd_stop) (performed (webhook P request) w)
      <-> Request.method request = "POST"
          /\ exists chat_id,
               kicked (Update.my_chat_member
                         (default Update.empty (Request.json request)))
               = Some chat_id).
Proof.
  intros Hstate Htext.
  assert (handled_command text = true -> False) as Hnone.
  { destruct Htext as [->| ->]; discriminate. }
  assert (handled_command text = false) as Hunhandled
    by (destruct (handled_command text); [destruct (Hnone eq_refl)|reflexivity]).
  pose proof (logged_in_search P chat text w _ _ Hstate Hunhandled) as Hrun.
  split; [exact Hrun|]. split.
  - unfold performed. rewrite Hrun. unfold block_search. run_monad.
    destruct (Provider.search P _) as [e|r]; run_monad;
      [|destruct (SearchResult.json r) as [e|]];
      [| destruct (_ || _)|]; run_monad; cbn [snd trace].
    all: rewrite drop_app_length; eexists; reflexivity.
  - rewrite webhook_performed.
    destruct (String.eqb_spec (Request.method request) "POST") as [->|Hne];
      cbn [negb]; [|cbn; intuition congruence].
    cbn zeta. destruct (kicked _) as [c|].
    + cbn. intuition eauto.
    + assert (forall acts : list (Action KvValue BotCommand),
                ~ In (ReportEvent cmd_stop) acts ->
                In (ReportEvent cmd_stop) acts
                <-> "POST" = "POST" /\ (exists chat_id : Z, None = Some chat_id))
        as Hno.
      { intros acts Hacts. split; [intros H; destruct (Hacts H)|].
        intros [_ [c Hc]]. discriminate. }
      destruct (Update.message _) as [message|]; [|apply Hno; intros []].
      destruct (truthy_opt _); [|apply Hno; intros []].
      apply Hno. rewrite transition_performed.
      intros [H|[H|H]]; try discriminate.
      exact (dispatch_never_stop _ _ _ _ _ H).
Qed.

Lemma stop_and_search_are_looked_up_witness :
  exists rest,
    performed (transition Sample.finder 7 "/stop") (Sample.world (logged_in "I" "IN"))
    = ([SendTypingIndicator (Some 7%Z); KvGet 7%Z;
        Search {| SearchData.number := "/stop";
                  SearchData.countryCode := "IN";
                  SearchData.installationId := "I" |}] ++ rest)%list.
Proof.
  apply (stop_and_search_are_looked_up Sample.finder 7 "/stop"
           (Sample.world (logged_in "I" "IN")) "I" "IN"
           {| Request.method := "POST"; Request.json := None |}
           eq_refl (or_introl eq_refl)).
Defined.

(** C6, no record means [logged_out]: for a chat without a record the
    loaded state is [logged_out], and the handler gives the same response,
    performs the same actions and leaves every chat with the same loaded
    state as it does when the record of the chat is [logged_out]; and every
    value of [KvValue] has exactly one status. *)
Theorem absent_record_is_logged_out (P : Provider.t) (chat : Z) (text : string)
  (w : World KvValue BotCommand) :
  stored w chat = None ->
  let w' := mkWorld (<[chat := logged_out]> (kv w)) (tgChatId w) (trace w) in
  loaded w chat = logged_out
  /\ fst (transition P chat text w) = fst (transition P chat text w')
  /\ performed (transition P chat text) w = performed (transition P chat text) w'
  /\ (forall c, loaded (snd (transition P chat text w)) c
                = loaded (snd (transition P chat text w')) c)
  /\ (forall v : KvValue, exists! s, status v = s).
Proof.
  intros Habsent w'.
  assert (loaded w chat = logged_out) as Hloaded
    by (unfold loaded; rewrite Habsent; reflexivity).
  assert (loaded w' chat = logged_out) as Hloaded'
    by (unfold loaded, stored, w'; cbn [kv]; rewrite lookup_insert_eq;
        reflexivity).
  split; [exact Hloaded|].
  rewrite !transition_performed, !transition_frame, Hloaded, Hloaded'.
  cbn [fst snd].
  split; [reflexivity|]. split; [reflexivity|]. split.
  - intros c. unfold loaded, stored. cbn [kv].
    apply replay_same_record. unfold w'. cbn [kv].
    destruct (decide (chat = c)) as [<-|Hne].
    + rewrite lookup_insert_eq. fold (stored w chat). rewrite Habsent.
      reflexivity.
    + rewrite lookup_insert_ne by exact Hne. reflexivity.
  - intros v. exists (status v). split; [reflexivity|]. intros s Hs. exact Hs.
Qed.

Lemma absent_record_is_logged_out_witness :
  loaded Sample.fresh 7 = logged_out
  /\ fst (transition Sample.finder 7 "+15551234567" Sample.fresh)
     = fst (transition Sample.finder 7 "+15551234567"
              (mkWorld (<[7%Z := logged_out]> (kv Sample.fresh))
                 (tgChatId Sample.fresh) (trace Sample.fresh)))
  /\ performed (transition Sample.finder 7 "+15551234567") Sample.fresh
     = performed (transition Sample.finder 7 "+15551234567")
         (mkWorld (<[7%Z := logged_out]> (kv Sample.fresh))
            (tgChatId Sample.fresh) (trace Sample.fresh))
  /\ (forall c, loaded (snd (transition Sample.finder 7 "+15551234567" Sample.fresh)) c
                = loaded (snd (transition Sample.finder 7 "+15551234567"
                                 (mkWorld (<[7%Z := logged_out]> (kv Sample.fresh))
                                    (tgChatId Sample.fresh) (trace Sample.fresh)))) c)
  /\ (forall v : KvValue, exists! s, status v = s).
Proof.
  apply (absent_record_is_logged_out Sample.finder 7 "+15551234567" Sample.fresh).
  reflexivity.
Defined.

(** C8, determinism: two runs of the handler on the same text, from two
    worlds in which the chat has the same loaded state, with two providers
    that give the same answers to the calls that the first run makes, end
    with the same response (or the same thrown error), perform the same
    actions (so the same write, the same delete, or neither: each store is
    its initial store with these actions replayed) and leave the chat with
    the same loaded state. *)
Theorem transition_deterministic (P1 P2 : Provider.t) (chat : Z)
  (text : string) (w1 w2 : World KvValue BotCommand) :
  loaded w1 chat = loaded w2 chat ->
  (forall a, In a (performed (transition P1 chat text) w1) ->
             same_answer P1 P2 a) ->
  fst (transition P1 chat text w1) = fst (transition P2 chat text w2)
  /\ performed (transition P1 chat text) w1
     = performed (transition P2 chat text) w2
  /\ kv (snd (transition P1 chat text w1))
     = replay (performed (transition P1 chat text) w1) (kv w1)
  /\ kv (snd (transition P2 chat text w2))
     = replay (performed (transition P1 chat text) w1) (kv w2)
  /\ loaded (snd (transition P1 chat text w1)) chat
     = loaded (snd (transition P2 chat text w2)) chat.
Proof.
  intros Hloaded Hsame.
  rewrite transition_performed in Hsame.
  assert (dispatch P1 chat (loaded w1 chat) text (mkWorld ∅ (Some chat) [])
          = dispatch P2 chat (loaded w2 chat) text (mkWorld ∅ (Some chat) []))
    as Hrun.
  { rewrite <- Hloaded. apply dispatch_same_answer.
    intros a Ha. apply Hsame. right. right. exact Ha. }
  rewrite !transition_performed, !transition_frame, <- Hrun.
  cbn [fst snd kv replay].
  repeat split.
  unfold loaded, stored. cbn [kv]. apply replay_same_record.
  exact Hloaded.
Qed.

Lemma transition_deterministic_witness :
  fst (transition Sample.finder 7 "+15551234567" (Sample.world awaiting_phone_no))
  = fst (transition (Sample.provider Sample.other_error) 7 "+15551234567"
           (mkWorld {[ 7%Z := awaiting_phone_no; 8%Z := logged_in "I" "IN" ]}
              (Some 8%Z) [KvGet 8%Z])).
Proof.
  apply (transition_deterministic Sample.finder
           (Sample.provider Sample.other_error) 7 "+15551234567"
           (Sample.world awaiting_phone_no)
           (mkWorld {[ 7%Z := awaiting_phone_no; 8%Z := logged_in "I" "IN" ]}
              (Some 8%Z) [KvGet 8%Z])).
  - reflexivity.
  - intros a Ha. vm_compute in Ha.
    destruct Ha as [<-|[<-|[<-|[<-|[]]]]]; first [exact I | reflexivity].
Defined.

End Claims.

(** * Further properties of the handler *)

(** ** Writes and calls of a trace *)

Section Writes.
Context {V E : Type}.

(** A write or a delete of the store. *)
Definition is_write (a : Action V E) : bool :=
  match a with
  | KvSet _ _ | KvDelete _ => true
  | _ => false
  end.

(** A call of one of the three provider operations. *)
Definition is_call (a : Action V E) : bool :=
  match a with
  | Login _ | VerifyOtp _ _ _ | Search _ => true
  | _ => false
  end.

Lemma replay_no_write (acts : list (Action V E)) (store : gmap Z V) :
  List.filter is_write acts = [] -> replay acts store = store.
Proof.
  revert store. induction acts as [|a acts IH]; intros store Hnone;
    [reflexivity|].
  destruct a; cbn in Hnone; try discriminate Hnone; cbn [replay];
    apply IH; exact Hnone.
Qed.

(** Replaying a trace whose written values all satisfy [Q] on a store whose
    records all satisfy [Q] gives such a store. *)
Lemma replay_preserves (Q : V -> Prop) (acts : list (Action V E)) :
  (forall a, In a acts ->
     match a with KvSet _ value => Q value | _ => True end) ->
  forall store : gmap Z V,
    (forall c v, store !! c = Some v -> Q v) ->
    forall c v, replay acts store !! c = Some v -> Q v.
Proof.
  induction acts as [|a acts IH]; intros Hacts store Hstore c v;
    [apply Hstore|].
  assert (forall b, In b acts ->
            match b with KvSet _ value => Q value | _ => True end) as Hrest
    by (intros b Hb; apply Hacts; right; exact Hb).
  pose proof (Hacts a (or_introl eq_refl)) as Ha.
  destruct a; cbn [replay]; apply (IH Hrest); try exact Hstore.
  - intros c' v'. destruct (decide (key = c')) as [->|Hne].
    + rewrite lookup_insert_eq. intros [= <-]. exact Ha.
    + rewrite lookup_insert_ne by exact Hne. apply Hstore.
  - intros c' v'. destruct (decide (key = c')) as [->|Hne].
    + rewrite lookup_delete_eq. discriminate.
    + rewrite lookup_delete_ne by exact Hne. apply Hstore.
Qed.

End Writes.

Module IndexMore.
Import Index.
Import IndexFacts.

(** Splitting the hypothesis [In a [a1; ...; an]] into its cases. *)
Ltac in_cases H :=
  cbn [In] in H;
  repeat match type of H with
         | _ \/ _ => destruct H as [H|H]
         end;
  try (destruct H; fail); try subst.

(** The trace of the blocks: at most one write and at most one provider
    call. *)
Lemma dispatch_shape P chat v text tg :
  let acts := trace (snd (dispatch P chat v text (mkWorld ∅ tg []))) in
  (length (List.filter is_write acts) <= 1)%nat
  /\ (length (List.filter is_call acts) <= 1)%nat.
Proof.
  unfold_blocks. cbn zeta.
  destruct v; cbn [is_logged_out is_logged_in first_return].
  all: run_monad.
  all: split_cases; cbn [fst snd trace]; split; cbn; lia.
Qed.

(** A run of the blocks that throws has written nothing, and what it
    throws is what a provider operation threw or what [search] wrapped. *)
Lemma dispatch_throw P chat v text tg error :
  fst (dispatch P chat v text (mkWorld ∅ tg [])) = inl error ->
  List.filter is_write (trace (snd (dispatch P chat v text (mkWorld ∅ tg [])))) = []
  /\ ((exists phoneNumber, Provider.login P phoneNumber = inl error)
      \/ (exists phoneNumber loginResponse otp,
            Provider.verifyOtp P phoneNumber loginResponse otp = inl error)
      \/ (exists searchData, Provider.search P searchData = inl error)
      \/ (exists searchData searchResult,
            Provider.search P searchData = inr searchResult
            /\ SearchResult.json searchResult = Some error)).
Proof.
  unfold_blocks.
  destruct v; cbn [is_logged_out is_logged_in first_return].
  all: run_monad.
  all: split_cases; cbn [fst snd trace]; intros Hthrow;
    try discriminate Hthrow.
  all: injection Hthrow as ->; split; [reflexivity|]; eauto 10.
Qed.

(** The message that [onError] picks. *)
Definition onError_message (error : JsError.t) : string :=
  match JsError.response error with
  | Some response =>
      if JsError.name error =? "AxiosError"
      then or_else (d ← AxiosResponse.data response; ResponseData.message d)
             msg_try_again
      else msg_internal_error error
  | None => msg_internal_error error
  end.

Lemma or_else_truthy a b : truthy b = true -> truthy (or_else a b) = true.
Proof.
  intros Hb. unfold or_else. destruct a as [s|]; [|exact Hb].
  destruct (truthy s) eqn:Hs; [exact Hs | exact Hb].
Qed.

Lemma onError_message_truthy error : truthy (onError_message error) = true.
Proof.
  unfold onError_message.
  destruct (JsError.response error) as [response|]; [|reflexivity].
  destruct (JsError.name error =? "AxiosError"); [|reflexivity].
  apply or_else_truthy. reflexivity.
Qed.

(** [onError] reports the error and replies to [tgChatId]; the branch with
    the empty response is never taken. *)
Lemma onError_run error (w : World KvValue BotCommand) :
  onError error w
  = (inr (SendMessage (tgChatId w) false (onError_message error)),
     mkWorld (kv w) (tgChatId w) (trace w ++ [ReportError error])).
Proof.
  unfold onError. fold (onError_message error).
  run_monad. rewrite onError_message_truthy. run_monad. reflexivity.
Qed.

(** The world after the request handler, in each of its cases. *)
Lemma webhook_cases P request (w : World KvValue BotCommand) :
  let update := default Update.empty (Request.json request) in
  webhook P request w
  = if negb (Request.method request =? "POST") then (inr NotFound, w)
    else
      match kicked (Update.my_chat_member update) with
      | Some chat =>
          (inr EmptyResponse,
           mkWorld (delete chat (kv w)) (tgChatId w)
             (trace w ++ [KvDelete chat; ReportEvent cmd_stop]))
      | None =>
          match Update.message update with
          | Some message =>
              if truthy_opt (Message.text message)
              then transition P (Message.chat_id message)
                     (default "" (Message.text message)) w
              else (inr EmptyResponse, w)
          | None => (inr EmptyResponse, w)
          end
      end.
Proof.
  unfold webhook. cbn zeta.
  destruct (negb _); [reflexivity|].
  destruct (kicked _); [run_monad; reflexivity|].
  destruct (Update.message _) as [message|]; [|reflexivity].
  destruct (truthy_opt _); reflexivity.
Qed.

(** Every provider call of the blocks is the one that the loaded state
    asks for, on the text of the message. *)
Definition call_fits (v : KvValue) (text : string) (a : Action KvValue BotCommand)
  : Prop :=
  match a with
  | Login phoneNumber =>
      v = awaiting_phone_no /\ phoneNumber = text
      /\ startsWith text "/" = false /\ startsWith text "+" = true
  | VerifyOtp phoneNumber loginResponse otp =>
      v = awaiting_otp phoneNumber loginResponse /\ otp = text
      /\ startsWith text "/" = false
  | Search searchData =>
      v = logged_in (SearchData.installationId searchData)
            (SearchData.countryCode searchData)
      /\ SearchData.number searchData = text
  | _ => True
  end.

Lemma dispatch_calls P chat v text tg a :
  In a (trace (snd (dispatch P chat v text (mkWorld ∅ tg [])))) ->
  call_fits v text a.
Proof.
  unfold_blocks.
  destruct v; cbn [is_logged_out is_logged_in first_return].
  all: run_monad.
  all: split_cases; cbn [fst snd trace]; intros Ha; in_cases Ha.
  all: cbn; try exact I; auto.
  all: match goal with
       | H : negb ?b = true |- _ => destruct b; try discriminate H; auto
       | H : negb ?b = false |- _ => destruct b; try discriminate H; auto
       | _ => idtac
       end.
Qed.

(** The edges of the state machine: the handler writes a record of status
    [s'] over a loaded state of status [s] only along these. *)
Definition edge (s s' : Status) : bool :=
  match s, s' with
  | st_logged_in, _ => false
  | _, st_awaiting_phone_no => true
  | _, st_awaiting_installation_id => true
  | st_awaiting_phone_no, st_awaiting_otp => true
  | st_awaiting_otp, st_logged_in => true
  | st_awaiting_installation_id, st_awaiting_country_code => true
  | st_awaiting_country_code, st_logged_in => true
  | _, _ => false
  end.

(** What the blocks do to the store: nothing, a delete of the chat's
    record, or one write of it along an edge. *)
Lemma dispatch_write_cases P chat v text tg (store : gmap Z KvValue) :
  let acts := trace (snd (dispatch P chat v text (mkWorld ∅ tg []))) in
  replay acts store = store
  \/ replay acts store = delete chat store
  \/ exists value,
       replay acts store = <[chat := value]> store
       /\ edge (status v) (status value) = true.
Proof.
  unfold_blocks. cbn zeta.
  destruct v; cbn [is_logged_out is_logged_in first_return].
  all: run_monad.
  all: split_cases; cbn [fst snd trace replay]; eauto.
Qed.

(** A record that holds an installation id holds a non-empty one. *)
Definition has_installation_id (v : KvValue) : Prop :=
  match v with
  | awaiting_country_code installationId => installationId <> ""
  | logged_in installationId _ => installationId <> ""
  | _ => True
  end.

Lemma truthy_not_empty s : truthy s = true -> s <> "".
Proof. intros H ->. discriminate H. Qed.

(** On a non-empty text, the blocks write records with a non-empty
    installation id, if the loaded record has one. *)
Lemma dispatch_installation_id P chat v text tg a :
  text <> "" ->
  has_installation_id v ->
  In a (trace (snd (dispatch P chat v text (mkWorld ∅ tg [])))) ->
  match a with
  | KvSet _ value => has_installation_id value
  | _ => True
  end.
Proof.
  intros Htext Hv. unfold_blocks.
  destruct v; cbn [is_logged_out is_logged_in first_return].
  all: run_monad.
  all: split_cases; cbn [fst snd trace]; intros Ha; in_cases Ha.
  all: cbn [has_installation_id] in *; try exact I; try assumption.
  match goal with
  | H : negb (truthy_opt ?o) = false |- _ =>
      destruct o as [s|]; cbn in H |- *; [|discriminate H];
      apply truthy_not_empty; destruct (truthy s); [reflexivity|discriminate H]
  end.
Qed.

(** The runs of the login flow. *)
Lemma login_run P chat (w : World KvValue BotCommand) :
  is_logged_in (loaded w chat) = false ->
  transition P chat "/login" w
  = (inr (SendMessage (Some chat) false msg_enter_phone),
     mkWorld (<[chat := awaiting_phone_no]> (kv w)) (Some chat)
       (trace w ++ [SendTypingIndicator (Some chat); KvGet chat;
                    KvSet chat awaiting_phone_no])).
Proof.
  intros Hstate. rewrite transition_unfold. unfold_blocks.
  destruct (loaded w chat); try discriminate Hstate;
    cbn -[app]; run_monad; reflexivity.
Qed.

Lemma plus_not_slash text :
  startsWith text "+" = true -> startsWith text "/" = false.
Proof.
  unfold startsWith. intros Hplus.
  destruct text as [|c text]; cbn [String.prefix] in Hplus |- *;
    [discriminate Hplus|].
  destruct (ascii_dec "+" c) as [<-|]; [|discriminate Hplus].
  destruct (ascii_dec "/" "+") as [Heq|]; [discriminate Heq | reflexivity].
Qed.

Lemma phone_accepted_run P chat text (w : World KvValue BotCommand) responseBody :
  stored w chat = Some awaiting_phone_no ->
  startsWith text "+" = true ->
  Provider.login P text = inr responseBody ->
  (LoginResponse.status responseBody =? 6)%Z
  || (LoginResponse.status responseBody =? 5)%Z = false ->
  (LoginResponse.status responseBody =? 1)%Z
  || (LoginResponse.status responseBody =? 9)%Z
  || (LoginResponse.message responseBody =? "Sent") = true ->
  transition P chat text w
  = (inr (SendMessage (Some chat) false msg_enter_otp),
     mkWorld (<[chat := awaiting_otp text responseBody]> (kv w)) (Some chat)
       (trace w ++ [SendTypingIndicator (Some chat); KvGet chat; Login text;
                    KvSet chat (awaiting_otp text responseBody)])).
Proof.
  intros Hstate Hplus Hlogin Hlimit Hsent.
  pose proof (plus_not_slash text Hplus) as Hslash.
  in_state Hstate. no_slash Hslash. rewrite Hslash, Hplus. cbn [negb].
  run_monad. rewrite Hlogin. run_monad. rewrite Hlimit, Hsent. cbn [negb].
  run_monad. reflexivity.
Qed.

Lemma otp_accepted_run P chat text (w : World KvValue BotCommand)
  phoneNumber loginResponse otpResponse installationId :
  stored w chat = Some (awaiting_otp phoneNumber loginResponse) ->
  startsWith text "/" = false ->
  Provider.verifyOtp P phoneNumber loginResponse text = inr otpResponse ->
  default false (OtpResponse.suspended otpResponse) = false ->
  status_is (OtpResponse.status otpResponse) 11 = false ->
  status_is (OtpResponse.status otpResponse) 7 = false ->
  OtpResponse.installationId otpResponse = Some installationId ->
  truthy installationId = true ->
  transition P chat text w
  = (inr (SendMessage (Some chat) false msg_success),
     mkWorld
       (<[chat := logged_in installationId
                    (LoginResponse.parsedCountryCode loginResponse)]> (kv w))
       (Some chat)
       (trace w ++ [SendTypingIndicator (Some chat); KvGet chat;
                    VerifyOtp phoneNumber loginResponse text;
                    KvSet chat
                      (logged_in installationId
                         (LoginResponse.parsedCountryCode loginResponse));
                    ReportEvent cmd_login])).
Proof.
  intros Hstate Hslash Hverify Hsuspended H11 H7 Hid Htruthy.
  in_state Hstate. no_slash Hslash. rewrite Hslash. cbn [negb].
  run_monad. rewrite Hverify. run_monad.
  rewrite Hsuspended, H11, H7, Hid. cbn [truthy_opt]. rewrite Htruthy.
  cbn [negb default from_option id]. run_monad. reflexivity.
Qed.

(** The search block starts with the call of [search]. *)
Lemma search_call_first P chat text (w : World KvValue BotCommand)
  installationId countryCode :
  stored w chat = Some (logged_in installationId countryCode) ->
  handled_command text = false ->
  exists rest,
    performed (transition P chat text) w
    = ([SendTypingIndicator (Some chat); KvGet chat;
        Search {| SearchData.number := text;
                  SearchData.countryCode := countryCode;
                  SearchData.installationId := installationId |}] ++ rest)%list.
Proof.
  intros Hstate Htext. unfold performed.
  rewrite (logged_in_search P chat text w _ _ Hstate Htext).
  unfold block_search. run_monad.
  destruct (Provider.search P _) as [e|r]; run_monad;
    [|destruct (SearchResult.json r) as [e|]];
    [| destruct (_ || _)|]; run_monad; cbn [snd trace].
  all: rewrite drop_app_length; eexists; reflexivity.
Qed.

End IndexMore.

(** ** Properties of [src/index.ts] beyond the claims *)

Section IndexExtras.
Import Index.
Import IndexFacts.
Import IndexMore.

(** X2, one write and one call at most: handling one message writes or
    deletes a record at most once and calls the provider at most once. *)
Theorem one_write_one_call (P : Provider.t) (chat : Z) (text : string)
  (w : World KvValue BotCommand) :
  (length (List.filter is_write (performed (transition P chat text) w)) <= 1)%nat
  /\ (length (List.filter is_call (performed (transition P chat text) w)) <= 1)%nat.
Proof.
  rewrite transition_performed.
  destruct (dispatch_shape P chat (loaded w chat) text (Some chat))
    as (Hwrites & Hcalls).
  cbn [List.filter is_write is_call].
  split; [exact Hwrites | exact Hcalls].
Qed.

(** X3, a throw writes nothing: when handling a message throws, the store
    is the one before the message, and the error thrown is one that a
    provider operation threw or that [search] returned wrapped. *)
Theorem throw_leaves_store (P : Provider.t) (chat : Z) (text : string)
  (w w' : World KvValue BotCommand) (error : JsError.t) :
  transition P chat text w = (inl error, w') ->
  kv w' = kv w
  /\ ((exists phoneNumber, Provider.login P phoneNumber = inl error)
      \/ (exists phoneNumber loginResponse otp,
            Provider.verifyOtp P phoneNumber loginResponse otp = inl error)
      \/ (exists searchData, Provider.search P searchData = inl error)
      \/ (exists searchData searchResult,
            Provider.search P searchData = inr searchResult
            /\ SearchResult.json searchResult = Some error)).
Proof.
  rewrite transition_frame. intros [= Hthrow <-].
  destruct (dispatch_throw P chat (loaded w chat) text (Some chat) error Hthrow)
    as [Hwrites Hfrom].
  split; [|exact Hfrom].
  cbn [kv]. apply replay_no_write. exact Hwrites.
Qed.

Lemma throw_leaves_store_witness :
  kv (snd (transition (Sample.provider Sample.other_error) 7 "+919999999999"
             (Sample.world (logged_in "I" "IN"))))
  = kv (Sample.world (logged_in "I" "IN")).
Proof.
  apply (throw_leaves_store (Sample.provider Sample.other_error) 7
           "+919999999999" (Sample.world (logged_in "I" "IN"))
           (snd (transition (Sample.provider Sample.other_error) 7
                   "+919999999999" (Sample.world (logged_in "I" "IN"))))
           Sample.other_error).
  reflexivity.
Defined.

(** X4, [serve] never throws: every request gets a response; an error
    thrown by the handler is reported once and answered by [onError] with a
    non-empty message. *)
Theorem serve_never_throws (P : Provider.t) (request : Request.t)
  (w : World KvValue BotCommand) :
  (exists response, fst (serve P request w) = inr response)
  /\ (forall error w',
        webhook P request w = (inl error, w') ->
        serve P request w
        = (inr (SendMessage (tgChatId w') false (onError_message error)),
           mkWorld (kv w') (tgChatId w') (trace w' ++ [ReportError error]))
        /\ onError_message error <> "").
Proof.
  split.
  - unfold serve, try_catch.
    destruct (webhook P request w) as [[error|response] w'].
    + rewrite onError_run. eauto.
    + eauto.
  - intros error w' Hthrow. unfold serve, try_catch. rewrite Hthrow.
    split; [apply onError_run|].
    pose proof (onError_message_truthy error) as Htruthy.
    intros Hempty. rewrite Hempty in Htruthy. discriminate Htruthy.
Qed.

(** X6, the state graph: handling a message leaves the chat in its loaded
    state, or without a record, or moves it along one of six edges:
    to [awaiting_phone_no] or [awaiting_installation_id] from every state
    but [logged_in], from [awaiting_phone_no] to [awaiting_otp], from
    [awaiting_installation_id] to [awaiting_country_code], and to
    [logged_in] from [awaiting_otp] or [awaiting_country_code] only.  A
    chat that is logged in stays so until its record is deleted. *)
Theorem state_graph (P : Provider.t) (chat : Z) (text : string)
  (w : World KvValue BotCommand) :
  let s := status (loaded w chat) in
  let s' := status (loaded (snd (transition P chat text w)) chat) in
  (s' = s \/ s' = st_logged_out \/ edge s s' = true)
  /\ (s' = st_logged_in ->
      s = st_logged_in \/ s = st_awaiting_otp \/ s = st_awaiting_country_code)
  /\ (s = st_logged_in -> s' = st_logged_in \/ s' = st_logged_out).
Proof.
  cbn zeta.
  assert (status (loaded (snd (transition P chat text w)) chat)
          = status (loaded w chat)
          \/ status (loaded (snd (transition P chat text w)) chat) = st_logged_out
          \/ edge (status (loaded w chat))
                (status (loaded (snd (transition P chat text w)) chat)) = true)
    as Hstep.
  { rewrite transition_frame. cbn [snd].
    pose proof (dispatch_write_cases P chat (loaded w chat) text (Some chat) (kv w))
      as Hcases.
    remember (loaded w chat) as v eqn:Hv.
    unfold loaded, stored. cbn [kv].
    destruct Hcases as [-> | [-> | (value & -> & Hedge)]].
    - left. rewrite Hv. reflexivity.
    - right. left. rewrite lookup_delete_eq. reflexivity.
    - right. right. rewrite lookup_insert_eq. exact Hedge. }
  split; [exact Hstep|].
  destruct (status (loaded w chat)),
    (status (loaded (snd (transition P chat text w)) chat));
    cbn in Hstep; split; intros H; try discriminate H; auto;
    destruct Hstep as [Hs|[Hs|Hs]]; discriminate Hs.
Qed.

(** X7, calls fit the state: [login] is called only in state
    [awaiting_phone_no] and with the text of the message, which then starts
    with [+]; [verifyOtp] only in state [awaiting_otp], with the stored
    phone number and login response and the text as OTP; [search] only in
    state [logged_in], with the stored installation id and country code and
    the text as number. *)
Theorem calls_fit_state (P : Provider.t) (chat : Z) (text : string)
  (w : World KvValue BotCommand) (a : Action KvValue BotCommand) :
  In a (performed (transition P chat text) w) ->
  call_fits (loaded w chat) text a.
Proof.
  rewrite transition_performed.
  intros [<-|[<-|Ha]]; [exact I | exact I |].
  exact (dispatch_calls _ _ _ _ _ _ Ha).
Qed.

Lemma calls_fit_state_witness :
  call_fits (loaded (Sample.world (logged_in "I" "IN")) 7) "+919999999999"
    (Search {| SearchData.number := "+919999999999";
               SearchData.countryCode := "IN";
               SearchData.installationId := "I" |}).
Proof.
  apply (calls_fit_state Sample.finder 7 "+919999999999"
           (Sample.world (logged_in "I" "IN"))).
  vm_compute. right. right. left. reflexivity.
Defined.

(** X8, logged in means stable: in state [logged_in], a message whose text
    is not [/logout] leaves the whole store as it is, whatever the provider
    answers or throws. *)
Theorem logged_in_is_stable (P : Provider.t) (chat : Z) (text : string)
  (w : World KvValue BotCommand) (installationId countryCode : string) :
  stored w chat = Some (logged_in installationId countryCode) ->
  text <> "/logout" ->
  kv (snd (transition P chat text w)) = kv w.
Proof.
  intros Hstate Htext.
  apply String.eqb_neq in Htext.
  rewrite transition_unfold. unfold loaded. rewrite Hstate.
  cbn [default from_option id]. unfold_blocks.
  cbn [is_logged_out is_logged_in first_return]. rewrite Htext.
  run_monad. split_cases; reflexivity.
Qed.

Lemma logged_in_is_stable_witness :
  kv (snd (transition Sample.finder 7 "/installation_id"
             (Sample.world (logged_in "I" "IN"))))
  = kv (Sample.world (logged_in "I" "IN")).
Proof.
  apply (logged_in_is_stable Sample.finder 7 "/installation_id"
           (Sample.world (logged_in "I" "IN")) "I" "IN");
    [reflexivity | discriminate].
Defined.

(** X9, no search without a login: when the chat is not logged in, a text
    that is none of the handled commands and that either comes in state
    [logged_out] or has a leading [/] is answered with the request to log
    in first; nothing is written and the provider is not called. *)
Theorem login_first (P : Provider.t) (chat : Z) (text : string)
  (w : World KvValue BotCommand) :
  is_logged_in (loaded w chat) = false ->
  handled_command text = false ->
  loaded w chat = logged_out \/ startsWith text "/" = true ->
  transition P chat text w
  = (inr (SendMessage (Some chat) false msg_login_first),
     mkWorld (kv w) (Some chat)
       (trace w ++ [SendTypingIndicator (Some chat); KvGet chat])).
Proof.
  intros Hstate Htext [Hout|Hslash].
  - apply handled_command_false in Htext as (H1 & H2 & H3 & H4 & H5).
    rewrite transition_unfold, Hout. unfold_blocks.
    rewrite H1, H2, H3, H4, H5.
    cbn -[app]. run_monad. reflexivity.
  - apply slash_leaves_flow; assumption.
Qed.

Lemma login_first_witness :
  transition Sample.finder 7 "+919999999999" Sample.fresh
  = (inr (SendMessage (Some 7%Z) false msg_login_first),
     mkWorld ∅ (Some 7%Z) [SendTypingIndicator (Some 7%Z); KvGet 7%Z]).
Proof.
  apply (login_first Sample.finder 7 "+919999999999" Sample.fresh);
    [reflexivity | reflexivity | left; reflexivity].
Defined.

(** X10, answers to a phone number: in state [awaiting_phone_no], for a
    text that starts with [+] and to which [login] returns a response: a
    status of 6 or 5 gets the attempts-exceeded reply, whatever the message;
    otherwise a status of 1 or 9 or the message [Sent] stores
    [awaiting_otp] with the text and the whole response and asks for the
    OTP; every other response is answered with its own message.  Only the
    second case writes. *)
Theorem phone_number_outcomes (P : Provider.t) (chat : Z) (text : string)
  (w : World KvValue BotCommand) (responseBody : LoginResponse.t) :
  stored w chat = Some awaiting_phone_no ->
  startsWith text "+" = true ->
  Provider.login P text = inr responseBody ->
  let status := LoginResponse.status responseBody in
  let called :=
    (trace w ++ [SendTypingIndicator (Some chat); KvGet chat; Login text])%list in
  transition P chat text w
  = if (status =? 6)%Z || (status =? 5)%Z
    then (inr (SendMessage (Some chat) false msg_attempts_exceeded),
          mkWorld (kv w) (Some chat) called)
    else if (status =? 1)%Z || (status =? 9)%Z
            || (LoginResponse.message responseBody =? "Sent")%string
    then (inr (SendMessage (Some chat) false msg_enter_otp),
          mkWorld (<[chat := awaiting_otp text responseBody]> (kv w)) (Some chat)
            (called ++ [KvSet chat (awaiting_otp text responseBody)]))
    else (inr (SendMessage (Some chat) false (LoginResponse.message responseBody)),
          mkWorld (kv w) (Some chat) called).
Proof.
  intros Hstate Hplus Hlogin status called.
  assert (startsWith text "/" = false) as Hslash.
  { unfold startsWith in *.
    destruct text as [|c text]; cbn [String.prefix] in Hplus |- *;
      [discriminate Hplus|].
    destruct (ascii_dec "+" c) as [<-|]; [|discriminate Hplus].
    destruct (ascii_dec "/" "+") as [Heq|]; [discriminate Heq | reflexivity]. }
  in_state Hstate. no_slash Hslash. rewrite Hslash, Hplus. cbn [negb].
  run_monad. rewrite Hlogin. run_monad. fold status.
  destruct ((status =? 6)%Z || (status =? 5)%Z); [reflexivity|].
  destruct ((status =? 1)%Z || (status =? 9)%Z
            || (LoginResponse.message responseBody =? "Sent")%string);
    cbn [negb]; run_monad; unfold called; rewrite <- ?app_assoc; reflexivity.
Qed.

Lemma phone_number_outcomes_witness :
  transition Sample.finder 7 "+15551234567" (Sample.world awaiting_phone_no)
  = (inr (SendMessage (Some 7%Z) false msg_enter_otp),
     mkWorld (<[7%Z := awaiting_otp "+15551234567" Sample.loginResponse]>
                {[ 7%Z := awaiting_phone_no ]}) (Some 7%Z)
       [SendTypingIndicator (Some 7%Z); KvGet 7%Z; Login "+15551234567";
        KvSet 7%Z (awaiting_otp "+15551234567" Sample.loginResponse)]).
Proof.
  apply (phone_number_outcomes Sample.finder 7 "+15551234567"
           (Sample.world awaiting_phone_no) Sample.loginResponse);
    reflexivity.
Defined.

(** X11, refused OTPs: in state [awaiting_otp], for a text without a
    leading [/] to which [verifyOtp] returns a response that is flagged as
    suspended, or has status 11 or 7, or has no installation id (or an
    empty one), the run writes nothing and reports no event, so the chat
    keeps awaiting the OTP; the reply is, in this order of precedence, the
    suspension text, [Invalid OTP], [Retries limit exceeded], or the
    message of the response (a fallback text when that is missing or
    empty). *)
Theorem otp_refusals (P : Provider.t) (chat : Z) (text : string)
  (w : World KvValue BotCommand) (phoneNumber : string)
  (loginResponse : LoginResponse.t) (otpResponse : OtpResponse.t) :
  stored w chat = Some (awaiting_otp phoneNumber loginResponse) ->
  startsWith text "/" = false ->
  Provider.verifyOtp P phoneNumber loginResponse text = inr otpResponse ->
  OtpResponse.suspended otpResponse = Some true
  \/ OtpResponse.status otpResponse = Some 11%Z
  \/ OtpResponse.status otpResponse = Some 7%Z
  \/ OtpResponse.installationId otpResponse = None
  \/ OtpResponse.installationId otpResponse = Some "" ->
  transition P chat text w
  = (inr (SendMessage (Some chat) false
            (if default false (OtpResponse.suspended otpResponse)
             then msg_suspended
             else if status_is (OtpResponse.status otpResponse) 11
             then msg_invalid_otp
             else if status_is (OtpResponse.status otpResponse) 7
             then msg_retries
             else or_else (OtpResponse.message otpResponse) msg_unknown_error)),
     mkWorld (kv w) (Some chat)
       (trace w ++ [SendTypingIndicator (Some chat); KvGet chat;
                    VerifyOtp phoneNumber loginResponse text])).
Proof.
  intros Hstate Hslash Hverify Hrefused.
  in_state Hstate. no_slash Hslash. rewrite Hslash. cbn [negb].
  run_monad. rewrite Hverify. run_monad.
  destruct (default false (OtpResponse.suspended otpResponse)) eqn:Hsuspended;
    [reflexivity|].
  destruct (status_is (OtpResponse.status otpResponse) 11) eqn:H11;
    [reflexivity|].
  destruct (status_is (OtpResponse.status otpResponse) 7) eqn:H7;
    [reflexivity|].
  destruct Hrefused as [H|[H|[H|[H|H]]]]; rewrite H in *;
    try discriminate; reflexivity.
Qed.

Lemma otp_refusals_witness :
  transition
    {| Provider.login := fun _ => inr Sample.loginResponse;
       Provider.verifyOtp := fun _ _ _ =>
         inr {| OtpResponse.suspended := None;
                OtpResponse.status := Some 11%Z;
                OtpResponse.installationId := None;
                OtpResponse.message := Some "wrong" |};
       Provider.search := Provider.search Sample.finder |}
    7 "000000" (Sample.world (awaiting_otp "+15551234567" Sample.loginResponse))
  = (inr (SendMessage (Some 7%Z) false msg_invalid_otp),
     mkWorld {[ 7%Z := awaiting_otp "+15551234567" Sample.loginResponse ]}
       (Some 7%Z)
       [SendTypingIndicator (Some 7%Z); KvGet 7%Z;
        VerifyOtp "+15551234567" Sample.loginResponse "000000"]).
Proof.
  apply (otp_refusals _ 7 "000000"
           (Sample.world (awaiting_otp "+15551234567" Sample.loginResponse))
           "+15551234567" Sample.loginResponse
           {| OtpResponse.suspended := None;
              OtpResponse.status := Some 11%Z;
              OtpResponse.installationId := None;
              OtpResponse.message := Some "wrong" |});
    [reflexivity | reflexivity | reflexivity | right; left; reflexivity].
Defined.

(** X12, the installation-id flow: from a chat that is not logged in, the
    three messages [/installation_id], an installation id and a country
    code (the last two without a leading [/]) end with the record
    [logged_in] holding that id and that country code, and none of the
    three runs calls the provider: the id is taken as it is. *)
Theorem installation_id_flow (P : Provider.t) (chat : Z)
  (installationId countryCode : string) (w : World KvValue BotCommand) :
  is_logged_in (loaded w chat) = false ->
  startsWith installationId "/" = false ->
  startsWith countryCode "/" = false ->
  let w1 := snd (transition P chat "/installation_id" w) in
  let w2 := snd (transition P chat installationId w1) in
  let w3 := snd (transition P chat countryCode w2) in
  stored w3 chat = Some (logged_in installationId countryCode)
  /\ List.filter is_call (drop (length (trace w)) (trace w3)) = [].
Proof.
  intros Hstate Hid Hcc.
  assert (transition P chat "/installation_id" w
    = (inr (SendMessage (Some chat) true msg_enter_installation_id),
       mkWorld (<[chat := awaiting_installation_id]> (kv w)) (Some chat)
         (trace w ++ [SendTypingIndicator (Some chat); KvGet chat;
                      KvSet chat awaiting_installation_id]))) as H1.
  { rewrite transition_unfold. unfold_blocks.
    destruct (loaded w chat); try discriminate Hstate;
      cbn -[app]; run_monad; reflexivity. }
  rewrite H1. cbn [snd]. cbn zeta.
  match goal with
  | |- context [transition P chat installationId ?w1] =>
      assert (stored w1 chat = Some awaiting_installation_id) as Hs1
        by (unfold stored; cbn [kv]; apply lookup_insert_eq);
      assert (transition P chat installationId w1
        = (inr (SendMessage (Some chat) true msg_enter_country_code),
           mkWorld (<[chat := awaiting_country_code installationId]> (kv w1))
             (Some chat)
             (trace w1 ++ [SendTypingIndicator (Some chat); KvGet chat;
                           KvSet chat (awaiting_country_code installationId);
                           ReportEvent cmd_installation_id]))) as H2
  end.
  { in_state Hs1. no_slash Hid. rewrite Hid. cbn [negb]. run_monad.
    reflexivity. }
  rewrite H2. cbn [snd kv trace].
  match goal with
  | |- context [transition P chat countryCode ?w2] =>
      assert (stored w2 chat = Some (awaiting_country_code installationId))
        as Hs2 by (unfold stored; cbn [kv]; apply lookup_insert_eq);
      rewrite (index_country_code_run P chat countryCode w2 installationId
                 Hs2 Hcc)
  end.
  cbn [snd kv trace]. split.
  - unfold stored. cbn [kv]. apply lookup_insert_eq.
  - rewrite <- !app_assoc. rewrite drop_app_length. reflexivity.
Qed.

Lemma installation_id_flow_witness :
  stored (snd (transition Sample.finder 7 "IN"
                 (snd (transition Sample.finder 7 "a1i0X--token"
                         (snd (transition Sample.finder 7 "/installation_id"
                                 Sample.fresh)))))) 7
  = Some (logged_in "a1i0X--token" "IN").
Proof.
  apply (installation_id_flow Sample.finder 7 "a1i0X--token" "IN" Sample.fresh);
    reflexivity.
Defined.

(** X13, the login flow: from a chat that is not logged in, [/login], a
    phone number that the provider accepts (status not 6 or 5, and status 1
    or 9 or message [Sent]) and an OTP that it accepts end with the record
    [logged_in] holding the installation id of the OTP response and the
    [parsedCountryCode] of the login response; and the next text that is no
    handled command is looked up with exactly these two. *)
Theorem login_flow_then_search (P : Provider.t) (chat : Z)
  (phoneNumber otp number : string) (w : World KvValue BotCommand)
  (responseBody : LoginResponse.t) (otpResponse : OtpResponse.t)
  (installationId : string) :
  is_logged_in (loaded w chat) = false ->
  startsWith phoneNumber "+" = true ->
  Provider.login P phoneNumber = inr responseBody ->
  (LoginResponse.status responseBody =? 6)%Z
  || (LoginResponse.status responseBody =? 5)%Z = false ->
  (LoginResponse.status responseBody =? 1)%Z
  || (LoginResponse.status responseBody =? 9)%Z
  || (LoginResponse.message responseBody =? "Sent") = true ->
  startsWith otp "/" = false ->
  Provider.verifyOtp P phoneNumber responseBody otp = inr otpResponse ->
  default false (OtpResponse.suspended otpResponse) = false ->
  status_is (OtpResponse.status otpResponse) 11 = false ->
  status_is (OtpResponse.status otpResponse) 7 = false ->
  OtpResponse.installationId otpResponse = Some installationId ->
  installationId <> "" ->
  handled_command number = false ->
  let w1 := snd (transition P chat "/login" w) in
  let w2 := snd (transition P chat phoneNumber w1) in
  let w3 := snd (transition P chat otp w2) in
  let session :=
    logged_in installationId (LoginResponse.parsedCountryCode responseBody) in
  stored w3 chat = Some session
  /\ exists rest,
       performed (transition P chat number) w3
       = ([SendTypingIndicator (Some chat); KvGet chat;
           Search {| SearchData.number := number;
                     SearchData.countryCode :=
                       LoginResponse.parsedCountryCode responseBody;
                     SearchData.installationId := installationId |}]
          ++ rest)%list.
Proof.
  intros Hstate Hplus Hlogin Hlimit Hsent Hslash Hverify Hsuspended H11 H7
    Hid Hnonempty Hnumber.
  rewrite (login_run P chat w Hstate). cbn [snd]. cbn zeta.
  match goal with
  | |- context [transition P chat phoneNumber ?w1] =>
      assert (stored w1 chat = Some awaiting_phone_no) as Hs1
        by (unfold stored; cbn [kv]; apply lookup_insert_eq);
      rewrite (phone_accepted_run P chat phoneNumber w1 responseBody
                 Hs1 Hplus Hlogin Hlimit Hsent)
  end.
  cbn [snd].
  assert (truthy installationId = true) as Htruthy.
  { unfold truthy. destruct (String.eqb_spec installationId "");
      [contradiction | reflexivity]. }
  match goal with
  | |- context [transition P chat otp ?w2] =>
      assert (stored w2 chat = Some (awaiting_otp phoneNumber responseBody))
        as Hs2 by (unfold stored; cbn [kv]; apply lookup_insert_eq);
      rewrite (otp_accepted_run P chat otp w2 phoneNumber responseBody
                 otpResponse installationId Hs2 Hslash Hverify Hsuspended
                 H11 H7 Hid Htruthy)
  end.
  cbn [snd].
  match goal with
  | |- stored ?w3 chat = _ /\ _ =>
      assert (stored w3 chat
              = Some (logged_in installationId
                        (LoginResponse.parsedCountryCode responseBody)))
        as Hs3 by (unfold stored; cbn [kv]; apply lookup_insert_eq)
  end.
  split; [exact Hs3|].
  apply search_call_first; assumption.
Qed.

Lemma login_flow_then_search_witness :
  stored (snd (transition Sample.finder 7 "123456"
                 (snd (transition Sample.finder 7 "+15551234567"
                         (snd (transition Sample.finder 7 "/login"
                                 Sample.fresh)))))) 7
  = Some (logged_in "a1i0X--token" "IN").
Proof.
  apply (login_flow_then_search Sample.finder 7 "+15551234567" "123456"
           "+919999999999" Sample.fresh Sample.loginResponse
           Sample.otpResponse "a1i0X--token");
    first [reflexivity | discriminate].
Defined.

(** X14, blocking the bot: a POST whose [my_chat_member] has the new status
    [kicked] deletes the record of that chat, reports the [/stop] event and
    is answered with an empty response; a message in the same update is not
    handled.  With any other status the [my_chat_member] part is ignored:
    the request is served as if it were absent. *)
Theorem membership_update (P : Provider.t) (member : ChatMemberUpdated.t)
  (message : option Message.t) (w : World KvValue BotCommand) :
  let request my_chat_member :=
    {| Request.method := "POST";
       Request.json :=
         Some {| Update.message := message;
                 Update.my_chat_member := my_chat_member |} |} in
  let chat := ChatMemberUpdated.chat_id member in
  if ChatMemberUpdated.new_chat_member_status member =? "kicked"
  then serve P (request (Some member)) w
       = (inr EmptyResponse,
          mkWorld (delete chat (kv w)) (tgChatId w)
            (trace w ++ [KvDelete chat; ReportEvent cmd_stop]))
       /\ stored (snd (serve P (request (Some member)) w)) chat = None
  else serve P (request (Some member)) w = serve P (request None) w.
Proof.
  cbn zeta. unfold serve, try_catch. rewrite !webhook_cases.
  cbn [Request.method Request.json negb default from_option id
       Update.message Update.my_chat_member kicked].
  change ("POST" =? "POST") with true. cbn [negb].
  destruct (ChatMemberUpdated.new_chat_member_status member =? "kicked");
    [|reflexivity].
  split; [reflexivity|].
  unfold stored. cbn [snd kv]. apply lookup_delete_eq.
Qed.

(** X15, installation ids are never empty: if every record of the store
    that holds an installation id ([awaiting_country_code], [logged_in])
    holds a non-empty one, the same is true after [serve], for every
    request and every provider.  The test [!message?.text] of the handler
    is what keeps the empty text out of the installation-id step. *)
Theorem installation_id_never_empty (P : Provider.t) (request : Request.t)
  (w : World KvValue BotCommand) :
  (forall c v, stored w c = Some v -> has_installation_id v) ->
  forall c v, stored (snd (serve P request w)) c = Some v ->
              has_installation_id v.
Proof.
  intros Hstore.
  assert (forall c v, stored (snd (webhook P request w)) c = Some v ->
                      has_installation_id v) as Hwebhook.
  { rewrite webhook_cases. cbn zeta.
    destruct (negb _); [exact Hstore|].
    destruct (kicked _) as [chat|].
    - intros c v. unfold stored. cbn [snd kv].
      destruct (decide (chat = c)) as [->|Hne].
      + rewrite lookup_delete_eq. discriminate.
      + rewrite lookup_delete_ne by exact Hne. apply Hstore.
    - destruct (Update.message _) as [message|]; [|exact Hstore].
      destruct (Message.text message) as [text|] eqn:Htext;
        cbn [truthy_opt]; [|exact Hstore].
      destruct (truthy text) eqn:Htruthy; [|exact Hstore].
      cbn [default from_option id].
      rewrite transition_frame. unfold stored. cbn [snd kv].
      apply (replay_preserves has_installation_id); [|exact Hstore].
      intros a. apply dispatch_installation_id.
      + apply truthy_not_empty. exact Htruthy.
      + unfold loaded.
        destruct (stored w (Message.chat_id message)) as [v|] eqn:Hv;
          [exact (Hstore _ _ Hv) | exact I]. }
  unfold serve, try_catch.
  destruct (webhook P request w) as [[error|response] w'] eqn:Hrun;
    [|exact Hwebhook].
  rewrite onError_run. exact Hwebhook.
Qed.

Lemma installation_id_never_empty_witness :
  has_installation_id (awaiting_country_code "a1i0X--token").
Proof.
  apply (installation_id_never_empty Sample.finder
           {| Request.method := "POST";
              Request.json :=
                Some {| Update.message :=
                          Some {| Message.chat_id := 7;
                                  Message.text := Some "a1i0X--token" |};
                        Update.my_chat_member := None |} |}
           (Sample.world awaiting_installation_id)
           ltac:(intros c v H; unfold stored, Sample.world in H; cbn [kv] in H;
                 apply lookup_singleton_Some in H as [_ <-]; exact I)
           7 (awaiting_country_code "a1i0X--token")).
  reflexivity.
Defined.

(** X16, requests without effect: [serve] performs no action at all (no
    typing indicator, no read of the store) exactly for the requests that
    are not a POST, and for the POSTs that are neither a kick nor carry a
    message with a non-empty text (a body that is not JSON among them); the
    former get the 404 response and the latter the empty one. *)
Theorem requests_without_effect (P : Provider.t) (request : Request.t)
  (w : World KvValue BotCommand) :
  let update := default Update.empty (Request.json request) in
  let has_text :=
    match Update.message update with
    | Some message => truthy_opt (Message.text message)
    | None => false
    end in
  let silent :=
    negb (Request.method request =? "POST")
    || (negb (bool_decide (is_Some (kicked (Update.my_chat_member update))))
        && negb has_text) in
  (performed (serve P request) w = [] <-> silent = true)
  /\ (silent = true ->
      serve P request w
      = (inr (if Request.method request =? "POST"
              then EmptyResponse else NotFound), w)).
Proof.
  cbn zeta. unfold performed, serve, try_catch. rewrite webhook_cases.
  cbn zeta.
  destruct (Request.method request =? "POST"); cbn [negb orb];
    [|rewrite drop_all; split; [split|]; reflexivity].
  destruct (kicked _) as [chat|]; cbn [bool_decide negb andb].
  - rewrite bool_decide_eq_true_2 by eauto. cbn [negb andb snd trace].
    rewrite drop_app_length. split; [split|]; discriminate.
  - rewrite bool_decide_eq_false_2 by (intros [? [=]]). cbn [negb andb].
    destruct (Update.message _) as [message|]; cbn [negb];
      [|rewrite drop_all; split; [split|]; reflexivity].
    destruct (truthy_opt (Message.text message)); cbn [negb];
      [|rewrite drop_all; split; [split|]; reflexivity].
    rewrite transition_frame.
    match goal with
    | |- context [dispatch P ?c ?v ?t ?w0] =>
        destruct (fst (dispatch P c v t w0))
    end; [rewrite onError_run|];
      cbn [snd trace]; rewrite <- ?app_assoc, drop_app_length;
      (split; [split|]; discriminate).
Qed.

(** X20, what the user sees of a search error: in state [logged_in], when
    [search] wraps an error whose status is neither 40101 nor 42601,
    [serve] reports the error and replies, unformatted, with the message of
    the error's response data if the error is an [AxiosError] with a
    response and that message is not empty, with [Try again with a valid
    number.] if it is such an error without a message, and with the
    internal-error text otherwise; the store is left as it is. *)
Theorem search_error_reply (P : Provider.t) (chat : Z) (text : string)
  (my_chat_member : option ChatMemberUpdated.t)
  (w : World KvValue BotCommand) (installationId countryCode : string)
  (searchResult : SearchResult.t) (error : JsError.t) :
  let searchData :=
    {| SearchData.number := text;
       SearchData.countryCode := countryCode;
       SearchData.installationId := installationId |} in
  kicked my_chat_member = None ->
  text <> "" ->
  handled_command text = false ->
  stored w chat = Some (logged_in installationId countryCode) ->
  Provider.search P searchData = inr searchResult ->
  SearchResult.json searchResult = Some error ->
  status_is (error_status error) 40101 = false ->
  status_is (error_status error) 42601 = false ->
  serve P
    {| Request.method := "POST";
       Request.json :=
         Some {| Update.message :=
                   Some {| Message.chat_id := chat; Message.text := Some text |};
                 Update.my_chat_member := my_chat_member |} |} w
  = (inr (SendMessage (Some chat) false
            (match JsError.response error with
             | Some response =>
                 if JsError.name error =? "AxiosError"
                 then or_else (d ← AxiosResponse.data response;
                               ResponseData.message d) msg_try_again
                 else msg_internal_error error
             | None => msg_internal_error error
             end)),
     mkWorld (kv w) (Some chat)
       (trace w ++ [SendTypingIndicator (Some chat); KvGet chat;
                    Search searchData; ReportError error])).
Proof.
  intros searchData Hkicked Hnonempty Htext Hstate Hsearch Hjson H1 H2.
  unfold serve, try_catch.
  rewrite (webhook_message P chat text my_chat_member w Hkicked Hnonempty).
  rewrite (logged_in_search P chat text w _ _ Hstate Htext).
  unfold block_search. fold searchData. run_monad.
  rewrite Hsearch. run_monad. rewrite Hjson, H1, H2. cbn [orb].
  rewrite onError_run. cbn [kv tgChatId trace].
  rewrite <- app_assoc. reflexivity.
Qed.

Lemma search_error_reply_witness :
  fst (serve (Sample.provider Sample.other_error)
         {| Request.method := "POST";
            Request.json :=
              Some {| Update.message :=
                        Some {| Message.chat_id := 7;
                                Message.text := Some "+919999999999" |};
                      Update.my_chat_member := None |} |}
         (Sample.world (logged_in "I" "IN")))
  = inr (SendMessage (Some 7%Z) false "Bad request").
Proof.
  apply (f_equal fst
           (search_error_reply (Sample.provider Sample.other_error) 7
              "+919999999999" None (Sample.world (logged_in "I" "IN"))
              "I" "IN"
              {| SearchResult.json := Some Sample.other_error;
                 SearchResult.getName := "Unknown" |}
              Sample.other_error eq_refl ltac:(discriminate) eq_refl eq_refl
              eq_refl eq_refl eq_refl eq_refl)).
Defined.

End IndexExtras.

(** ** The revisions side by side *)

Section Revisions.
Import Index.
Import IndexFacts.

(** X17, the latest revision against [src/index.ts]: on every message the
    two handlers reply to the same chat with the same text and the same
    formatting flag (or throw the same error), leave the same store and
    perform the same actions, whatever the order of their blocks, except
    where the latest revision was changed on purpose: the reply to
    [/start], the prompt of [/login] when the chat is not logged in, and a
    country code whose [length] is not two.  The link-preview field of the
    reply's JSON body, which [SendMessage] does not carry, is spelled
    differently in the two revisions. *)
Theorem latest_revision_agrees (P : Provider.t) (chat : Z) (text : string)
  (w : World KvValue BotCommand) :
  text <> "/start" ->
  text <> "/login" \/ is_logged_in (loaded w chat) = true ->
  (status (loaded w chat) = st_awaiting_country_code ->
   startsWith text "/" = true \/ js_length text = 2%nat) ->
  PartB.transition P chat text w = transition P chat text w.
Proof.
  intros Hstart Hlogin Hcode.
  apply String.eqb_neq in Hstart.
  rewrite PartBFacts.transition_unfold_B, transition_unfold.
  unfold PartBFacts.loaded.
  PartBFacts.unfold_blocks. rewrite Hstart.
  destruct (text =? "/login") eqn:Hl.
  - destruct Hlogin as [Hne|Hin];
      [apply String.eqb_eq in Hl; contradiction|].
    apply String.eqb_eq in Hl. subst text.
    destruct (loaded w chat); try discriminate Hin.
    reflexivity.
  - clear Hstart Hlogin Hl.
    destruct (String.eqb_spec text "/info") as [->|_];
      [destruct (loaded w chat); reflexivity|].
    destruct (String.eqb_spec text "/installation_id") as [->|_];
      [destruct (loaded w chat); reflexivity|].
    destruct (String.eqb_spec text "/logout") as [->|_];
      [destruct (loaded w chat); reflexivity|].
    destruct (loaded w chat) eqn:Hv;
      cbn [is_logged_out is_logged_in first_return].
    1-3, 5-6: destruct (startsWith text "/"); reflexivity.
    destruct (Hcode eq_refl) as [Hslash|Hlen].
    + rewrite Hslash. reflexivity.
    + rewrite Hlen. destruct (startsWith text "/"); reflexivity.
Qed.

Lemma latest_revision_agrees_witness :
  PartB.transition Sample.finder 7 "IN" (Sample.world (awaiting_country_code "I"))
  = transition Sample.finder 7 "IN" (Sample.world (awaiting_country_code "I")).
Proof.
  apply (latest_revision_agrees Sample.finder 7 "IN"
           (Sample.world (awaiting_country_code "I")));
    [discriminate | left; discriminate | intros _; right; reflexivity].
Defined.

(** X18, the oldest revision hands every text to the provider: in
    [src/unnamed/part_000] (first file) the flows do not test for a leading
    [/] and a message may have no text.  While the chat awaits the OTP,
    every message whose text is not [/start], [/logout] or [/login] calls
    [verifyOtp] with that text, a message without text with the empty OTP;
    while it is logged in, every such message calls [search], a message
    without text with the empty number. *)
Theorem oldest_revision_forwards_everything (P : Provider.t) (chat : Z)
  (text : option string) (w : World PartA.KvValue PartA.EventName) :
  text <> Some "/start" -> text <> Some "/logout" -> text <> Some "/login" ->
  let message :=
    {| Message.chat_id := chat; Message.text := text |} in
  let request :=
    {| Request.method := "POST";
       Request.json :=
         Some {| Update.message := Some message;
                 Update.my_chat_member := None |} |} in
  match PartAFacts.loaded w chat with
  | PartA.awaiting_otp phoneNumber loginResponse =>
      exists rest,
        performed (PartA.webhook P request) w
        = ([SendTypingIndicator (Some chat); KvGet chat;
            VerifyOtp phoneNumber loginResponse (default "" text)] ++ rest)%list
  | PartA.logged_in installationId countryCode =>
      exists rest,
        performed (PartA.webhook P request) w
        = ([SendTypingIndicator (Some chat); KvGet chat;
            Search {| SearchData.number := default "" text;
                      SearchData.countryCode := countryCode;
                      SearchData.installationId := installationId |}]
           ++ rest)%list
  | _ => True
  end.
Proof.
  intros Hstart Hlogout Hlogin. cbn zeta.
  assert (forall literal, text <> Some literal ->
                          PartA.text_is text literal = false) as Hnot.
  { intros literal Hne. destruct text as [t|]; [|reflexivity]. cbn.
    apply String.eqb_neq. congruence. }
  unfold performed, PartA.webhook.
  cbn [Request.method Request.json negb default from_option id
       Update.message Update.my_chat_member kicked Message.text
       Message.chat_id].
  change ("POST" =? "POST") with true. cbn [negb].
  rewrite PartAFacts.transition_unfold_A.
  destruct (PartAFacts.loaded w chat); try exact I.
  - unfold PartA.dispatch, PartA.block_start, PartA.block_logout,
      PartA.block_login, PartA.block_awaiting_phone_no,
      PartA.block_awaiting_otp.
    rewrite !Hnot by assumption. cbn [first_return]. run_monad.
    destruct (Provider.verifyOtp P _ _ _) as [e|r]; run_monad;
      repeat match goal with
        | |- context [if ?c then _ else _] => destruct c; run_monad
        end; cbn [snd trace]; rewrite drop_app_length; eexists; reflexivity.
  - unfold PartA.dispatch, PartA.block_start, PartA.block_logout,
      PartA.block_login, PartA.block_awaiting_phone_no,
      PartA.block_awaiting_otp, PartA.block_search.
    rewrite !Hnot by assumption. cbn [first_return]. run_monad.
    destruct (Provider.search P _) as [e|r]; run_monad;
      [|destruct (SearchResult.json r)]; run_monad;
      cbn [snd trace]; rewrite drop_app_length; eexists; reflexivity.
Qed.

Lemma oldest_revision_forwards_everything_witness :
  exists rest,
    performed
      (PartA.webhook Sample.finder
         {| Request.method := "POST";
            Request.json :=
              Some {| Update.message :=
                        Some {| Message.chat_id := 7; Message.text := None |};
                      Update.my_chat_member := None |} |})
      (mkWorld {[ 7%Z := PartA.logged_in "I" "IN" ]} None [])
    = ([SendTypingIndicator (Some 7%Z); KvGet 7%Z;
        Search {| SearchData.number := "";
                  SearchData.countryCode := "IN";
                  SearchData.installationId := "I" |}] ++ rest)%list.
Proof.
  exact (oldest_revision_forwards_everything Sample.finder 7 None
           (mkWorld {[ 7%Z := PartA.logged_in "I" "IN" ]} None [])
           ltac:(discriminate) ltac:(discriminate) ltac:(discriminate)).
Defined.

End Revisions.

(** ** The escaping of error reports

    [reportError] of [src/index.ts] (and of the oldest revision) sends the
    details of an error to the report channel inside a MarkdownV2 code
    block, after
    [details.replaceAll("\\", "\\\\").replaceAll("`", "\\`")]. *)

Module Report.

(** [s.replaceAll(search, replacement)] for a search string of one
    character. *)
Fixpoint replaceAll (s : string) (search : ascii) (replacement : string)
  : string :=
  match s with
  | EmptyString => EmptyString
  | String c rest =>
      (if Ascii.eqb c search then replacement else String c EmptyString)
      ++ replaceAll rest search replacement
  end.

(** The two replacements of [reportError], in the order of the source:
    first each backslash is doubled, then each backtick gets a backslash. *)
Definition escape (details : string) : string :=
  replaceAll (replaceAll details "\" "\\") "`" "\`".

(** Telegram's rule for the text of a code block: a backslash or a backtick
    appears only after an escaping backslash. *)
Inductive escaped : string -> Prop :=
| escaped_nil : escaped ""
| escaped_plain c s :
    c <> "\"%char -> c <> "`"%char -> escaped s -> escaped (String c s)
| escaped_pair c s :
    c = "\"%char \/ c = "`"%char -> escaped s ->
    escaped (String "\" (String c s)).

(** Reading an escaped text: a backslash stands for the character after
    it. *)
Fixpoint unescape (s : string) : string :=
  match s with
  | EmptyString => EmptyString
  | String c rest =>
      match rest with
      | String c' rest' =>
          if Ascii.eqb c "\" then String c' (unescape rest')
          else String c (unescape rest)
      | EmptyString => String c EmptyString
      end
  end.

Example escape_backtick_and_backslash :
  escape "a`b\c" = "a\`b\\c".
Proof. reflexivity. Qed.

Lemma append_assoc (s1 s2 s3 : string) : (s1 ++ s2) ++ s3 = s1 ++ (s2 ++ s3).
Proof.
  induction s1 as [|c s1 IH]; [reflexivity|].
  change (String c ((s1 ++ s2) ++ s3) = String c (s1 ++ (s2 ++ s3))).
  rewrite IH. reflexivity.
Qed.

Lemma replaceAll_app s1 s2 search replacement :
  replaceAll (s1 ++ s2) search replacement
  = replaceAll s1 search replacement ++ replaceAll s2 search replacement.
Proof.
  induction s1 as [|c s1 IH]; [reflexivity|].
  change (String c s1 ++ s2) with (String c (s1 ++ s2)).
  cbn [replaceAll]. rewrite IH.
  destruct (Ascii.eqb c search).
  - symmetry. apply append_assoc.
  - reflexivity.
Qed.

(** What [escape] does to the first character. *)
Lemma escape_cons c s :
  escape (String c s)
  = if Ascii.eqb c "\" then String "\" (String "\" (escape s))
    else if Ascii.eqb c "`" then String "\" (String "`" (escape s))
    else String c (escape s).
Proof.
  unfold escape. cbn [replaceAll].
  destruct (Ascii.eqb_spec c "\") as [->|Hbackslash].
  - rewrite replaceAll_app. reflexivity.
  - rewrite replaceAll_app. cbn [append replaceAll].
    destruct (Ascii.eqb_spec c "`") as [->|Hbacktick]; reflexivity.
Qed.

End Report.

Section ReportExtras.
Import Report.

(** X19, error reports are escaped correctly: for every text, the result of
    the two [replaceAll] calls of [reportError] obeys Telegram's rule for
    code blocks (no backtick or backslash without an escaping backslash
    before it, so the text cannot close the code block), and reading the
    escapes gives the text back. *)
Theorem escape_round_trip (details : string) :
  escaped (escape details) /\ unescape (escape details) = details.
Proof.
  induction details as [|c s [IHescaped IHread]].
  - split; [constructor | reflexivity].
  - rewrite escape_cons.
    destruct (Ascii.eqb_spec c "\") as [->|Hbackslash].
    + split; [apply escaped_pair; auto|].
      cbn. rewrite IHread. reflexivity.
    + destruct (Ascii.eqb_spec c "`") as [->|Hbacktick].
      * split; [apply escaped_pair; auto|].
        cbn. rewrite IHread. reflexivity.
      * split; [apply escaped_plain; assumption|].
        cbn [unescape].
        destruct (escape s) as [|c' rest] eqn:Hrest.
        -- cbn in IHread. subst s. reflexivity.
        -- destruct (Ascii.eqb_spec c "\"); [contradiction|].
           rewrite IHread. reflexivity.
Qed.

End ReportExtras.
